(** * Chart resolution and verified acquisition

    A shallow embedding of [pkg/downloader/chart_downloader.go]
    (package [downloader] of the vendored Helm tree) together with the
    properties of its resolver, owner-repository scan, credential merge
    and verification policy.

    The functions of the file are transcribed one by one and keep their
    Go names.  Everything the file imports from other packages
    ([net/url], [path/filepath], [io/ioutil], [os], [pkg/repo],
    [pkg/getter], [pkg/urlutil], [pkg/provenance], [pkg/helm/helmpath])
    is collected in the class [Externals]; the general theorems hold
    for every implementation of that interface. *)

From stdpp Require Import base option list strings gmap.
From Stdlib Require Import ZArith Ascii String.

Local Open Scope string_scope.
Local Open Scope Z_scope.

(** ** Errors

    Go errors are compared by identity in this file ([err ==
    ErrNoOwnerRepo]).  The sentinel is its own constructor; values built
    with [errors.New], [errors.Errorf], [errors.Wrap] and [errors.Wrapf]
    keep their format string and arguments; [Foreign] stands for an
    error value produced by another package.  [Panic] marks a run-time
    panic (nil dereference, index out of range). *)
Inductive error : Type :=
| ErrNoOwnerRepo
| New (msg : string)
| Errorf (format : string) (args : list string)
| Wrap (cause : error) (msg : string)
| Wrapf (cause : error) (format : string) (args : list string)
| Foreign (msg : string)
| Panic (msg : string).

Inductive Result (A : Type) : Type :=
| Ok (a : A)
| Err (e : error).
Arguments Ok {A} a.
Arguments Err {A} e.

(** [err == ErrNoOwnerRepo] *)
Definition is_ErrNoOwnerRepo (e : error) : bool :=
  match e with ErrNoOwnerRepo => true | _ => false end.

(** ** VerificationStrategy

    [type VerificationStrategy int] with four constants numbered by
    [iota]; the code compares them as integers. *)
Inductive VerificationStrategy : Type :=
| VerifyNever
| VerifyIfPossible
| VerifyAlways
| VerifyLater.

Definition iota (v : VerificationStrategy) : Z :=
  match v with
  | VerifyNever => 0
  | VerifyIfPossible => 1
  | VerifyAlways => 2
  | VerifyLater => 3
  end.

(** ** Data of the imported packages *)

(** [url.Userinfo] *)
Record Userinfo : Type := mkUserinfo {
  ui_username : string;
  ui_password : string;
  ui_passwordSet : bool
}.

(** [url.URL] *)
Record URL : Type := mkURL {
  Scheme : string;
  Opaque : string;
  User : option Userinfo;
  Host : string;
  Path : string;
  RawPath : string;
  ForceQuery : bool;
  RawQuery : string;
  Fragment : string
}.

(** [func (u *URL) IsAbs() bool { return u.Scheme != "" }] *)
Definition IsAbs (u : URL) : bool := negb (String.eqb (Scheme u) "").

Definition set_Path (u : URL) (p : string) : URL :=
  mkURL (Scheme u) (Opaque u) (User u) (Host u) p (RawPath u)
        (ForceQuery u) (RawQuery u) (Fragment u).

Definition set_RawQuery (u : URL) (q : string) : URL :=
  mkURL (Scheme u) (Opaque u) (User u) (Host u) (Path u) (RawPath u)
        (ForceQuery u) q (Fragment u).

(** [url.Values], a [map[string][]string] *)
Abbreviation Values := (gmap string (list string)).

(** [repo.Entry]: one repository of the registry file.  Its fields
    [URL], [Username] and [Password] are [EntryURL], [EntryUsername] and
    [EntryPassword] here, apart from the type [URL] and from the fields
    of the downloader. *)
Record Entry : Type := mkEntry {
  Name : string;
  Cache : string;
  EntryURL : string;
  EntryUsername : string;
  EntryPassword : string;
  CertFile : string;
  KeyFile : string;
  CAFile : string
}.

(** [repo.File]: the registry, [Repositories []*Entry] in file order *)
Record RepoFile : Type := mkRepoFile {
  Repositories : list Entry
}.

(** [repo.ChartVersion], with the fields this package reads *)
Record ChartVersion : Type := mkChartVersion {
  cv_Name : string;
  cv_Version : string;
  URLs : list string;
  Digest : string
}.

(** [repo.IndexFile]: [Entries map[string]ChartVersions] *)
Record IndexFile : Type := mkIndexFile {
  Entries : gmap string (list ChartVersion)
}.

(** [provenance.Verification] *)
Record Verification : Type := mkVerification {
  SignedBy : option string;
  FileHash : string;
  FileName : string
}.

(** [&provenance.Verification{}] *)
Definition empty_Verification : Verification := mkVerification None "" "".

(** [os.FileInfo], as far as [VerifyChart] looks at it *)
Record FileInfo : Type := mkFileInfo {
  IsDir : bool
}.

(** ** A state monad for the effectful functions *)
Definition M (S A : Type) : Type := S -> A * S.

Definition ret {S A : Type} (a : A) : M S A := fun s => (a, s).

Definition bind {S A B : Type} (m : M S A) (k : A -> M S B) : M S B :=
  fun s => let (a, s') := m s in k a s'.

Declare Scope go_scope.
Delimit Scope go_scope with go.
Notation "x <- m ;; k" := (bind m (fun x => k))
  (at level 100, m at next level, right associativity) : go_scope.
Notation "m ;;; k" := (bind m (fun _ => k))
  (at level 100, right associativity) : go_scope.

(** The state of the file system and of the network, the HTTP client
    behind a getter, getters of other schemes, the collection of getter
    constructors, and a loaded keyring are left abstract. *)
Class Platform : Type := {
  World : Type;
  HTTPClient : Type;
  OtherGetter : Type;
  Providers : Type;
  Signatory : Type
}.

Section Model.

Context `{Platform}.

(** Modelled from the spec: [getter.HTTPGetter] is not under src/; the
    transport is "configurable with credentials": a client plus a
    username and a password. *)
Record HTTPGetter : Type := mkHTTPGetter {
  client : HTTPClient;
  username : string;
  password : string
}.

(** Modelled from the spec: the method [HTTPGetter.SetCredentials] is not under
    src/; it "configures an instance with username/password
    credentials". *)
Definition SetCredentials (g : HTTPGetter) (up : string * string) : HTTPGetter :=
  mkHTTPGetter (client g) (fst up) (snd up).

(** [getter.Getter], the interface value held by a repository *)
Inductive Getter : Type :=
| GetterHTTP (g : HTTPGetter)
| GetterOther (o : OtherGetter).

(** [repo.ChartRepository]; [Config] is a pointer and may be nil *)
Record ChartRepository : Type := mkChartRepository {
  Config : option Entry;
  Client : Getter
}.

(** [ChartDownloader].  [Out] is not a field of the model: what is
    written to it appears in the trace (see [Event]). *)
Record ChartDownloader : Type := mkChartDownloader {
  Verify : VerificationStrategy;
  Keyring : string;
  HelmHome : string;
  Getters : Providers;
  Username : string;
  Password : string
}.

(** ** The imported functions *)
Class Externals : Type := {
  (* net/url *)
  url_Parse : string -> Result URL;
  url_ResolveReference : URL -> URL -> URL;
  url_Query : URL -> Values;
  Values_Encode : Values -> string;
  url_String : URL -> string;
  (* path/filepath and strings *)
  filepath_Base : string -> string;
  filepath_Join : string -> string -> string;
  filepath_Ext : string -> string;
  strings_ToLower : string -> string;
  (* pkg/helm/helmpath *)
  RepositoryFile : string -> string;
  CacheIndex : string -> string -> string;
  (* pkg/repo *)
  repo_LoadFile : string -> World -> Result RepoFile;
  repo_LoadIndexFile : string -> World -> Result IndexFile;
  IndexFile_Get : IndexFile -> string -> string -> Result ChartVersion;
  newClient : Entry -> Providers -> World -> Result Getter;
  (* pkg/getter *)
  NewHTTPGetter : string -> string -> string -> string -> Result HTTPGetter;
  Getter_Get : Getter -> string -> World -> Result string * World;
  (* pkg/urlutil *)
  urlutil_Equal : string -> string -> bool;
  (* io/ioutil and os *)
  ioutil_WriteFile : string -> string -> World -> option error * World;
  os_Stat : string -> World -> Result FileInfo;
  (* pkg/provenance *)
  provenance_NewFromKeyring : string -> string -> World -> Result Signatory;
  Signatory_Verify :
    Signatory -> string -> string -> World -> option Verification * option error
}.

Context `{Externals}.

(** Modelled from the spec: [repo.NewChartRepository] is not under src/;
    it builds the repository object of a registry entry ("return with
    owning repository set"): its [Config] is the entry, its [Client] is
    whatever the getter constructor for the entry builds, and a
    constructor failure is the failure of the call. *)
Definition NewChartRepository (cfg : Entry) (getters : Providers) (w : World)
  : Result ChartRepository :=
  match newClient cfg getters w with
  | Ok cl => Ok (mkChartRepository (Some cfg) cl)
  | Err e => Err e
  end.

(** ** Go string helpers used by the file *)

(** [strings.TrimSuffix(s, "/")]: drops one final slash when there is one *)
Fixpoint TrimSuffix_slash (s : string) : string :=
  match s with
  | EmptyString => EmptyString
  | String a EmptyString => if Ascii.eqb a "/" then EmptyString else s
  | String a rest => String a (TrimSuffix_slash rest)
  end.

(** [strings.SplitN(s, "/", 2)]: at most two pieces, cut at the first slash *)
Fixpoint SplitN_slash_2 (s : string) : list string :=
  match s with
  | EmptyString => [EmptyString]
  | String a rest =>
      if Ascii.eqb a "/" then [EmptyString; rest]
      else match SplitN_slash_2 rest with
           | hd :: tl => String a hd :: tl
           | [] => [String a EmptyString]
           end
  end.

(** ** getRepoCredentials *)
Definition getRepoCredentials (c : ChartDownloader) (r : option ChartRepository)
  : string * string :=
  let username := Username c in
  let password := Password c in
  match r with
  | Some r' =>
      match Config r' with
      | Some cfg =>
          let username :=
            if String.eqb username "" then EntryUsername cfg else username in
          let password :=
            if String.eqb password "" then EntryPassword cfg else password in
          (username, password)
      | None => (username, password)
      end
  | None => (username, password)
  end.

(** ** isTar *)
Definition isTar (filename : string) : bool :=
  String.eqb (strings_ToLower (filepath_Ext filename)) ".tgz".

(** ** pickChartRepositoryConfigByName *)
Fixpoint pickChartRepositoryConfigByName (name : string) (cfgs : list Entry)
  : Result Entry :=
  match cfgs with
  | [] => Err (Errorf "repo %s not found" [name])
  | rc :: rest =>
      if String.eqb (Name rc) name then
        if String.eqb (EntryURL rc) "" then
          Err (Errorf "no URL found for repository %s" [name])
        else Ok rc
      else pickChartRepositoryConfigByName name rest
  end.

(** ** scanReposForURL *)

(** The three inner loops: does some URL of some version of some chart
    of the index compare equal to [u]?  The iteration order of the Go
    map does not matter, every hit returns the same [rc]. *)
Definition version_lists (u : string) (ver : ChartVersion) : bool :=
  existsb (fun dl => urlutil_Equal u dl) (URLs ver).

Definition index_lists (u : string) (i : IndexFile) : bool :=
  existsb (fun kv => existsb (version_lists u) (snd kv))
          (map_to_list (Entries i)).

(** What a nil dereference ([r.Config.Name] with a nil [Config],
    [u.String()] with a nil [u]) stops the call with. *)
Definition nil_dereference : error :=
  Panic "invalid memory address or nil pointer dereference".

Definition no_cached_repo : string :=
  "no cached repo found. (try 'helm repo update')".

Fixpoint scan_loop (c : ChartDownloader) (u : string) (repos : list Entry)
  (w : World) : Result Entry :=
  match repos with
  | [] => Err ErrNoOwnerRepo
  | rc :: rest =>
      match NewChartRepository rc (Getters c) w with
      | Err e => Err e
      | Ok r =>
          match Config r with
          | None => Err nil_dereference
          | Some cfg =>
              match repo_LoadIndexFile (CacheIndex (HelmHome c) (Name cfg)) w with
              | Err e => Err (Wrap e no_cached_repo)
              | Ok i =>
                  if index_lists u i then Ok rc
                  else scan_loop c u rest w
              end
          end
      end
  end.

Definition scanReposForURL (c : ChartDownloader) (u : string) (rf : RepoFile)
  (w : World) : Result Entry :=
  scan_loop c u (Repositories rf) w.

(** ** ResolveChartVersionAndGetRepo

    The four results are the Go results in order: [*url.URL],
    [*repo.ChartRepository], [*getter.HTTPGetter] (each possibly nil)
    and the error (nil is [None]).  The function only reads the
    world. *)
Definition Resolved : Type :=
  (option URL * option ChartRepository * option HTTPGetter * option error)%type.

Definition invalid_chart_URL (ref : string) : error :=
  Errorf "invalid chart URL format: %s" [ref].

(** Lines 240-257: the first candidate URL [u] has no scheme. *)
Definition rebase (c : ChartDownloader) (rc : Entry) (r : ChartRepository)
  (u : URL) : Resolved :=
  match url_Parse (EntryURL rc) with
  | Err e => (None, Some r, None, Some e)
  | Ok repoURL =>
      let q := url_Query repoURL in
      let repoURL := set_Path repoURL (TrimSuffix_slash (Path repoURL) +:+ "/") in
      let u := url_ResolveReference repoURL u in
      let u := set_RawQuery u (Values_Encode q) in
      match NewHTTPGetter (EntryURL rc) "" "" "" with
      | Err e => (Some repoURL, Some r, None, Some e)
      | Ok g =>
          let g := SetCredentials g (getRepoCredentials c (Some r)) in
          (Some u, Some r, Some g, None)
      end
  end.

(** Lines 198-259: the reference is of the form repo/path_to_chart. *)
Definition resolve_shorthand (c : ChartDownloader) (ref version : string)
  (u : URL) (rf : RepoFile) (g : HTTPGetter) (w : World) : Resolved :=
  match SplitN_slash_2 (Path u) with
  | repoName :: chartName :: _ =>
      match pickChartRepositoryConfigByName repoName (Repositories rf) with
      | Err e => (Some u, None, None, Some e)
      | Ok rc =>
          match NewChartRepository rc (Getters c) w with
          | Err e => (Some u, None, None, Some e)
          | Ok r =>
              let g := SetCredentials g (getRepoCredentials c (Some r)) in
              match Config r with
              | None => (Some u, Some r, Some g, Some nil_dereference)
              | Some cfg =>
                  match repo_LoadIndexFile (CacheIndex (HelmHome c) (Name cfg)) w with
                  | Err e => (Some u, Some r, Some g, Some (Wrap e no_cached_repo))
                  | Ok i =>
                      match IndexFile_Get i chartName version with
                      | Err e =>
                          (Some u, Some r, Some g,
                           Some (Wrapf e
                             "chart %q matching %s not found in %s index. (try 'helm repo update')"
                             [chartName; version; Name cfg]))
                      | Ok cv =>
                          match URLs cv with
                          | [] =>
                              (Some u, Some r, Some g,
                               Some (Errorf "chart %q has no downloadable URLs" [ref]))
                          | first :: _ =>
                              match url_Parse first with
                              | Err _ => (None, Some r, Some g, Some (invalid_chart_URL ref))
                              | Ok u =>
                                  if negb (IsAbs u) then rebase c rc r u
                                  else (Some u, Some r, Some g, None)
                              end
                          end
                      end
                  end
              end
          end
      end
  | _ =>
      (Some u, None, None,
       Some (Errorf
         "non-absolute URLs should be in form of repo_name/path_to_chart, got: %s"
         [url_String u]))
  end.

(** Lines 173-196: the reference has a scheme, a host and a path.  In
    the no-owner branch [r.Client] and the returned getter are the same
    pointer, so the credentials set on [g] are seen through both. *)
Definition resolve_absolute (c : ChartDownloader) (ref : string)
  (u : URL) (rf : RepoFile) (g : HTTPGetter) (w : World) : Resolved :=
  match scanReposForURL c ref rf w with
  | Err err =>
      if is_ErrNoOwnerRepo err then
        let r := mkChartRepository None (GetterHTTP g) in
        let g := SetCredentials g (getRepoCredentials c (Some r)) in
        let r := mkChartRepository None (GetterHTTP g) in
        (Some u, Some r, Some g, Some err)
      else (Some u, None, None, Some err)
  | Ok rc =>
      match NewChartRepository rc (Getters c) w with
      | Ok r => (Some u, Some r, Some g, None)
      | Err err => (Some u, None, Some g, Some err)
      end
  end.

Definition ResolveChartVersionAndGetRepo (c : ChartDownloader)
  (ref version : string) (w : World) : Resolved :=
  match url_Parse ref with
  | Err _ => (None, None, None, Some (invalid_chart_URL ref))
  | Ok u =>
      match repo_LoadFile (RepositoryFile (HelmHome c)) w with
      | Err e => (Some u, None, None, Some e)
      | Ok rf =>
          match NewHTTPGetter ref "" "" "" with
          | Err e => (Some u, None, None, Some e)
          | Ok g =>
              if IsAbs u && Nat.ltb 0 (String.length (Host u))
                         && Nat.ltb 0 (String.length (Path u))
              then resolve_absolute c ref u rf g w
              else resolve_shorthand c ref version u rf g w
          end
      end
  end.

(** ** ResolveChartVersion *)
Definition ResolveChartVersion (c : ChartDownloader) (ref version : string)
  (w : World) : option URL * option Getter * option error :=
  match ResolveChartVersionAndGetRepo c ref version w with
  | (u, Some r, _, err) => (u, Some (Client r), err)
  | (u, None, _, err) => (u, None, err)
  end.

(** ** Effects

    [DownloadTo] and [VerifyChart] act on the world.  Besides the world
    the state carries a trace: one event per request sent through a
    getter, per file written, per message printed to [c.Out], and one
    per call of [VerifyChart]. *)
Inductive Event : Type :=
| EvGet (g : Getter) (url : string)
| EvWriteFile (filename data : string)
| EvWarning (ref : string) (cause : error)
| EvVerifyChart (path keyring : string).

Record State : Type := mkState {
  world : World;
  trace : list Event
}.

Definition Go (A : Type) : Type := M State A.

Definition emit (e : Event) : Go unit :=
  fun s => (tt, mkState (world s) (trace s ++ [e])).

(** an operation that reads the world *)
Definition reading {A : Type} (f : World -> A) : Go A :=
  fun s => (f (world s), s).

(** an operation that reads and changes the world *)
Definition acting {A : Type} (f : World -> A * World) : Go A :=
  fun s => let (a, w') := f (world s) in (a, mkState w' (trace s)).

Local Open Scope go_scope.

(** [g.Get(url)] *)
Definition Get (g : Getter) (url : string) : Go (Result string) :=
  emit (EvGet g url) ;;; acting (Getter_Get g url).

(** [ioutil.WriteFile(filename, data, 0644)] *)
Definition WriteFile (filename data : string) : Go (option error) :=
  emit (EvWriteFile filename data) ;;; acting (ioutil_WriteFile filename data).

(** [fmt.Fprintf(c.Out, "WARNING: Verification not found for %s: %s\n", ref, err)] *)
Definition Warning (ref : string) (cause : error) : Go unit :=
  emit (EvWarning ref cause).

(** ** VerifyChart *)
Definition VerifyChart (path keyring : string)
  : Go (option Verification * option error) :=
  emit (EvVerifyChart path keyring) ;;;
  fi <- reading (os_Stat path) ;;
  match fi with
  | Err err => ret (None, Some err)
  | Ok fi =>
      if IsDir fi then
        ret (None, Some (New "unpacked charts cannot be verified"))
      else if negb (isTar path) then
        ret (None, Some (New "chart must be a tgz file"))
      else
        let provfile := path +:+ ".prov" in
        st <- reading (os_Stat provfile) ;;
        match st with
        | Err err =>
            ret (None, Some (Wrapf err "could not load provenance file %s" [provfile]))
        | Ok _ =>
            sig <- reading (provenance_NewFromKeyring keyring "") ;;
            match sig with
            | Err err => ret (None, Some (Wrap err "failed to load keyring"))
            | Ok sig => reading (Signatory_Verify sig path provfile)
            end
        end
  end.

(** ** DownloadTo

    The result is the Go triple: the path, the verification (possibly
    nil) and the error. *)
Definition Downloaded : Type :=
  (string * option Verification * option error)%type.

(** Lines 105-130, once the archive is written to [destfile]. *)
Definition provenance_step (c : ChartDownloader) (ref : string) (u : URL)
  (r : ChartRepository) (destfile : string) : Go Downloaded :=
  let ver := Some empty_Verification in
  if iota VerifyNever <? iota (Verify c) then
    body <- Get (Client r) (url_String u +:+ ".prov") ;;
    match body with
    | Err err =>
        if iota (Verify c) =? iota VerifyAlways then
          ret (destfile, ver,
               Some (Errorf "failed to fetch provenance %q" [url_String u +:+ ".prov"]))
        else
          Warning ref err ;;;
          ret (destfile, ver, None)
    | Ok body =>
        let provfile := destfile +:+ ".prov" in
        werr <- WriteFile provfile body ;;
        match werr with
        | Some err => ret (destfile, None, Some err)
        | None =>
            if negb (iota (Verify c) =? iota VerifyLater) then
              ve <- VerifyChart destfile (Keyring c) ;;
              match snd ve with
              | Some err => ret (destfile, fst ve, Some err)
              | None => ret (destfile, fst ve, None)
              end
            else ret (destfile, ver, None)
        end
    end
  else ret (destfile, ver, None).

Definition DownloadTo (c : ChartDownloader) (ref version dest : string)
  : Go Downloaded :=
  res <- reading (ResolveChartVersionAndGetRepo c ref version) ;;
  match res with
  | (_, _, _, Some err) => ret ("", None, Some err)
  | (Some u, Some r, Some g, None) =>
      data <- Get (GetterHTTP g) (url_String u) ;;
      match data with
      | Err err => ret ("", None, Some err)
      | Ok data =>
          let name := filepath_Base (Path u) in
          let destfile := filepath_Join dest name in
          werr <- WriteFile destfile data ;;
          match werr with
          | Some err => ret (destfile, None, Some err)
          | None => provenance_step c ref u r destfile
          end
      end
  | (_, _, _, None) => ret ("", None, Some nil_dereference)
  end.

(** ** Vocabulary of the properties *)

(** The reference is absolute in the sense of line 173: it has a
    scheme, a host and a non-empty path. *)
Definition absolute (u : URL) : Prop :=
  IsAbs u = true /\ Host u <> "" /\ Path u <> "".

(** The repository object of [rc] can be built and its cached index
    loads as [i]. *)
Definition loads (c : ChartDownloader) (rc : Entry) (w : World) (i : IndexFile)
  : Prop :=
  (exists cl, newClient rc (Getters c) w = Ok cl) /\
  repo_LoadIndexFile (CacheIndex (HelmHome c) (Name rc)) w = Ok i.

(** Some candidate URL of some version of some chart of the index
    equals [u] under [urlutil.Equal]. *)
Definition listed (u : string) (i : IndexFile) : Prop :=
  exists name versions ver dl,
    Entries i !! name = Some versions /\
    In ver versions /\ In dl (URLs ver) /\ urlutil_Equal u dl = true.

(** The index of [rc] loads and lists [u] / loads and does not. *)
Definition owns (c : ChartDownloader) (u : string) (rc : Entry) (w : World)
  : Prop :=
  exists i, loads c rc w i /\ listed u i.

Definition disowns (c : ChartDownloader) (u : string) (rc : Entry) (w : World)
  : Prop :=
  exists i, loads c rc w i /\ ~ listed u i.

(** The repository object of [rc] can be built but its index cannot be
    read, the loader failing with [e]. *)
Definition unreadable (c : ChartDownloader) (rc : Entry) (w : World) (e : error)
  : Prop :=
  (exists cl, newClient rc (Getters c) w = Ok cl) /\
  repo_LoadIndexFile (CacheIndex (HelmHome c) (Name rc)) w = Err e.

(** The shorthand lookup of [ref] at [version] gets as far as line 229:
    the reference parses to the non-absolute [u0], the registry loads,
    [g0] is the getter built from the reference, the first path segment
    names the registry entry [rc] with repository object [r], and the
    index of [rc] answers the query for the rest of the path at
    [version] with the entry [cv]. *)
Definition matched (c : ChartDownloader) (ref version : string) (w : World)
  (u0 : URL) (g0 : HTTPGetter) (rc : Entry) (r : ChartRepository)
  (cv : ChartVersion) : Prop :=
  exists rf repoName chartName more i,
    url_Parse ref = Ok u0 /\
    repo_LoadFile (RepositoryFile (HelmHome c)) w = Ok rf /\
    NewHTTPGetter ref "" "" "" = Ok g0 /\
    IsAbs u0 && Nat.ltb 0 (String.length (Host u0))
             && Nat.ltb 0 (String.length (Path u0)) = false /\
    SplitN_slash_2 (Path u0) = repoName :: chartName :: more /\
    pickChartRepositoryConfigByName repoName (Repositories rf) = Ok rc /\
    NewChartRepository rc (Getters c) w = Ok r /\
    repo_LoadIndexFile (CacheIndex (HelmHome c) (Name rc)) w = Ok i /\
    IndexFile_Get i chartName version = Ok cv.

(** The error of line 230. *)
Definition no_downloadable_URLs (ref : string) : error :=
  Errorf "chart %q has no downloadable URLs" [ref].

(** What line 234 onwards makes of the first candidate URL alone. *)
Definition from_first_candidate (c : ChartDownloader) (ref : string) (rc : Entry)
  (r : ChartRepository) (g : HTTPGetter) (first : string) : Resolved :=
  match url_Parse first with
  | Err _ => (None, Some r, Some g, Some (invalid_chart_URL ref))
  | Ok u => if negb (IsAbs u) then rebase c rc r u else (Some u, Some r, Some g, None)
  end.

(** The base URL with one trailing slash of its path stripped and one
    slash appended. *)
Definition slashed (repoURL : URL) : URL :=
  set_Path repoURL (TrimSuffix_slash (Path repoURL) +:+ "/").

(** A request for the provenance file of [u] was sent. *)
Definition provenance_fetched (u : URL) (tr : list Event) : Prop :=
  exists g, In (EvGet g (url_String u +:+ ".prov")) tr.

(** [VerifyChart] was called. *)
Definition verifier_invoked (tr : list Event) : Prop :=
  exists path keyring, In (EvVerifyChart path keyring) tr.

(** A warning was printed. *)
Definition warned (tr : list Event) : Prop :=
  exists ref cause, In (EvWarning ref cause) tr.

(** The state a call starts from: a world and no events yet. *)
Definition start (w : World) : State := mkState w [].

(** ** Further vocabulary *)

(** The text contains a slash. *)
Definition has_slash (s : string) : bool :=
  existsb (fun a => Ascii.eqb a "/") (list_ascii_of_string s).

(** The text ends in a slash. *)
Fixpoint ends_with_slash (s : string) : bool :=
  match s with
  | EmptyString => false
  | String a EmptyString => Ascii.eqb a "/"
  | String _ rest => ends_with_slash rest
  end.

(** Lines 157-205: the reference parses to [u0], which fails the test
    of line 173, the registry loads as [rf], [g0] is the getter built
    from the reference, and the path of [u0] reads [name], a slash,
    [chart], without a slash in [name]. *)
Definition shorthand (c : ChartDownloader) (ref : string) (w : World)
  (u0 : URL) (rf : RepoFile) (g0 : HTTPGetter) (name chart : string) : Prop :=
  url_Parse ref = Ok u0 /\
  repo_LoadFile (RepositoryFile (HelmHome c)) w = Ok rf /\
  NewHTTPGetter ref "" "" "" = Ok g0 /\
  IsAbs u0 && Nat.ltb 0 (String.length (Host u0))
           && Nat.ltb 0 (String.length (Path u0)) = false /\
  Path u0 = name +:+ "/" +:+ chart /\
  has_slash name = false.

(** The path [DownloadTo] writes the archive of [u] to. *)
Definition destination (dest : string) (u : URL) : string :=
  filepath_Join dest (filepath_Base (Path u)).

(** The events of a download, in the order of the code: the request
    for the archive (line 94), its write (line 101), the request for the
    provenance file (line 108), its write (line 117) and the call of
    the verifier (line 122). *)
Definition archive_request (u : URL) (g : HTTPGetter) : Event :=
  EvGet (GetterHTTP g) (url_String u).

Definition archive_write (dest : string) (u : URL) (data : string) : Event :=
  EvWriteFile (destination dest u) data.

Definition provenance_request (u : URL) (r : ChartRepository) : Event :=
  EvGet (Client r) (url_String u +:+ ".prov").

Definition provenance_write (dest : string) (u : URL) (body : string) : Event :=
  EvWriteFile (destination dest u +:+ ".prov") body.

Definition verification (c : ChartDownloader) (dest : string) (u : URL) : Event :=
  EvVerifyChart (destination dest u) (Keyring c).

End Model.

Arguments VerifyChart : simpl never.
Arguments ResolveChartVersionAndGetRepo : simpl never.


(** * A model of [net/url]

    The functions of Go's [net/url] that the downloader calls, for
    plain references: those written over letters, digits and
    [- _ . ~ / : ? = &], hence without percent-escapes, user
    information, bracketed hosts or fragments.  On such a reference
    [Parse] follows [url.Parse] step by step; anything else is reported
    as [outside_fragment], an error of the model.  The other functions
    follow [net/url] on URLs whose [User] is nil and whose host and path
    are plain, where escaping and unescaping leave them unchanged. *)
Module NetURL.

Local Open Scope nat_scope.

Definition code (c : ascii) : nat := nat_of_ascii c.

Definition is_lower (c : ascii) : bool := (97 <=? code c) && (code c <=? 122).
Definition is_upper (c : ascii) : bool := (65 <=? code c) && (code c <=? 90).
Definition is_letter (c : ascii) : bool := is_lower c || is_upper c.
Definition is_digit (c : ascii) : bool := (48 <=? code c) && (code c <=? 57).

Definition one_of (set : string) (c : ascii) : bool :=
  existsb (Ascii.eqb c) (list_ascii_of_string set).

Definition plain_char (c : ascii) : bool :=
  is_letter c || is_digit c || one_of "-_.~/:?=&" c.

Definition plain (s : string) : bool :=
  forallb plain_char (list_ascii_of_string s).

Definition outside_fragment : error :=
  Foreign "net/url model: reference outside the plain fragment".

Definition lower_char (c : ascii) : ascii :=
  if is_upper c then ascii_of_nat (code c + 32) else c.

Fixpoint ToLower (s : string) : string :=
  match s with
  | EmptyString => EmptyString
  | String a r => String (lower_char a) (ToLower r)
  end.

(** [split(s, c, cutc)] of net/url: cut at the first [c] *)
Fixpoint split (c : ascii) (cutc : bool) (s : string) : string * string :=
  match s with
  | EmptyString => (EmptyString, EmptyString)
  | String a r =>
      if Ascii.eqb a c then (EmptyString, if cutc then r else s)
      else let (x, y) := split c cutc r in (String a x, y)
  end.

Definition contains (c : ascii) (s : string) : bool :=
  existsb (Ascii.eqb c) (list_ascii_of_string s).

Definition count (c : ascii) (s : string) : nat :=
  List.length (List.filter (Ascii.eqb c) (list_ascii_of_string s)).

Definition HasPrefix (s p : string) : bool := String.prefix p s.

Definition last_char (s : string) : option ascii :=
  List.last (map Some (list_ascii_of_string s)) None.

Definition drop_last (s : string) : string :=
  string_of_list_ascii (List.removelast (list_ascii_of_string s)).

(** [strings.Split(s, "/")] and [strings.Join(l, "/")] *)
Fixpoint Split_slash (s : string) : list string :=
  match s with
  | EmptyString => [EmptyString]
  | String a r =>
      if Ascii.eqb a "/" then EmptyString :: Split_slash r
      else match Split_slash r with
           | hd :: tl => String a hd :: tl
           | [] => [String a EmptyString]
           end
  end.

Fixpoint Join_slash (l : list string) : string :=
  match l with
  | [] => EmptyString
  | [x] => x
  | x :: rest => x +:+ "/" +:+ Join_slash rest
  end.

(** [getscheme]: [None] is the error "missing protocol scheme" *)
Fixpoint getscheme_loop (first : bool) (s : string) : option (option (string * string)) :=
  match s with
  | EmptyString => Some None
  | String c r =>
      if is_letter c then
        match getscheme_loop false r with
        | Some (Some (sch, rest)) => Some (Some (String c sch, rest))
        | other => other
        end
      else if is_digit c || one_of "+-." c then
        if first then Some None
        else match getscheme_loop false r with
             | Some (Some (sch, rest)) => Some (Some (String c sch, rest))
             | other => other
             end
      else if Ascii.eqb c ":" then
        if first then None else Some (Some (EmptyString, r))
      else Some None
  end.

Definition getscheme (rawurl : string) : option (string * string) :=
  match getscheme_loop true rawurl with
  | None => None
  | Some None => Some (EmptyString, rawurl)
  | Some (Some p) => Some p
  end.

(** [validOptionalPort] *)
Definition validOptionalPort (port : string) : bool :=
  match port with
  | EmptyString => true
  | String c r => Ascii.eqb c ":" && forallb is_digit (list_ascii_of_string r)
  end.

(** the text from the last colon on, if there is a colon *)
Fixpoint from_last_colon (s : string) : option string :=
  match s with
  | EmptyString => None
  | String a r =>
      match from_last_colon r with
      | Some t => Some t
      | None => if Ascii.eqb a ":" then Some s else None
      end
  end.

(** [parseHost], without the bracketed form *)
Definition parseHost (host : string) : Result string :=
  match from_last_colon host with
  | Some colonPort =>
      if validOptionalPort colonPort then Ok host
      else Err (Foreign "invalid port after host")
  | None => Ok host
  end.

(** does the first path segment contain a colon? *)
Definition colon_in_first_segment (rest : string) : bool :=
  contains ":" (fst (split "/" false rest)).

Definition blank : URL :=
  mkURL EmptyString EmptyString None EmptyString EmptyString EmptyString
        false EmptyString EmptyString.

(** [parse(rawurl, false)] *)
Definition parse (rawurl : string) : Result URL :=
  match getscheme rawurl with
  | None => Err (Foreign "missing protocol scheme")
  | Some (scheme, rest) =>
      let scheme := ToLower scheme in
      let '(rest, rawquery, force) :=
        if match last_char rest with Some c => Ascii.eqb c "?" | None => false end
           && (count "?" rest =? 1)
        then (drop_last rest, EmptyString, true)
        else let (r, q) := split "?" true rest in (r, q, false) in
      let opaque := negb (HasPrefix rest "/") && negb (String.eqb scheme "") in
      if opaque then
        Ok (mkURL scheme rest None EmptyString EmptyString EmptyString
                  force rawquery EmptyString)
      else if negb (HasPrefix rest "/") && colon_in_first_segment rest then
        Err (Foreign "first path segment in URL cannot contain colon")
      else if (negb (String.eqb scheme "") || negb (HasPrefix rest "///"))
              && HasPrefix rest "//" then
        let (authority, rest) := split "/" false (String.substring 2 (String.length rest - 2) rest) in
        match parseHost authority with
        | Err e => Err e
        | Ok host =>
            Ok (mkURL scheme EmptyString None host rest EmptyString
                      force rawquery EmptyString)
        end
      else
        Ok (mkURL scheme EmptyString None EmptyString rest EmptyString
                  force rawquery EmptyString)
  end.

(** [url.Parse] *)
Definition Parse (rawurl : string) : Result URL :=
  if plain rawurl then parse rawurl else Err outside_fragment.

(** [resolvePath] *)
Fixpoint drop_dots (src dst : list string) : list string :=
  match src with
  | [] => dst
  | elem :: rest =>
      if String.eqb elem "." then drop_dots rest dst
      else if String.eqb elem ".." then drop_dots rest (List.removelast dst)
      else drop_dots rest (dst ++ [elem])
  end.

Definition TrimPrefix_slash (s : string) : string :=
  match s with
  | String a r => if Ascii.eqb a "/" then r else s
  | EmptyString => s
  end.

(** [base[:strings.LastIndex(base, "/")+1]] *)
Definition through_last_slash (base : string) : string :=
  match List.rev (Split_slash base) with
  | _ :: before => Join_slash (List.rev (EmptyString :: before))
  | [] => EmptyString
  end.

Definition resolvePath (base ref : string) : string :=
  let full :=
    match ref with
    | EmptyString => base
    | String a _ => if Ascii.eqb a "/" then ref else through_last_slash base +:+ ref
    end in
  if String.eqb full "" then EmptyString
  else
    let src := Split_slash full in
    let dst := drop_dots src [] in
    let last := List.last src EmptyString in
    let dst := if String.eqb last "." || String.eqb last ".." then (dst ++ [EmptyString])%list else dst in
    "/" +:+ TrimPrefix_slash (Join_slash dst).

(** [(u *URL) ResolveReference(ref)] *)
Definition ResolveReference (u ref : URL) : URL :=
  let scheme := if String.eqb (Scheme ref) "" then Scheme u else Scheme ref in
  if negb (String.eqb (Scheme ref) "") || negb (String.eqb (Host ref) "")
     || match User ref with Some _ => true | None => false end
  then
    mkURL scheme (Opaque ref) (User ref) (Host ref)
          (resolvePath (Path ref) EmptyString) EmptyString
          (ForceQuery ref) (RawQuery ref) (Fragment ref)
  else if negb (String.eqb (Opaque ref) "") then
    mkURL scheme (Opaque ref) None EmptyString EmptyString (RawPath ref)
          (ForceQuery ref) (RawQuery ref) (Fragment ref)
  else
    let inherit := String.eqb (Path ref) "" && String.eqb (RawQuery ref) "" in
    let rawquery := if inherit then RawQuery u else RawQuery ref in
    let fragment :=
      if inherit && String.eqb (Fragment ref) "" then Fragment u else Fragment ref in
    mkURL scheme (Opaque ref) (User u) (Host u)
          (resolvePath (Path u) (Path ref)) EmptyString
          (ForceQuery ref) rawquery fragment.

(** [(u *URL) String()] *)
Definition String_ (u : URL) : string :=
  let scheme := if String.eqb (Scheme u) "" then EmptyString else Scheme u +:+ ":" in
  let body :=
    if negb (String.eqb (Opaque u) "") then scheme +:+ Opaque u
    else
      let authority :=
        if negb (String.eqb (Scheme u) "") || negb (String.eqb (Host u) "") then
          (if negb (String.eqb (Host u) "") || negb (String.eqb (Path u) "")
           then "//" else EmptyString) +:+ Host u
        else EmptyString in
      let path := Path u in
      let slash :=
        if negb (String.eqb path "") && negb (HasPrefix path "/")
           && negb (String.eqb (Host u) "")
        then "/" else EmptyString in
      let prefix := scheme +:+ authority +:+ slash in
      let dot :=
        if String.eqb prefix "" && colon_in_first_segment path then "./"
        else EmptyString in
      prefix +:+ dot +:+ path in
  let query :=
    if ForceQuery u || negb (String.eqb (RawQuery u) "")
    then "?" +:+ RawQuery u else EmptyString in
  let fragment :=
    if String.eqb (Fragment u) "" then EmptyString else "#" +:+ Fragment u in
  body +:+ query +:+ fragment.

(** [parseQuery] on a plain query: pairs separated by [&], key and
    value separated by the first [=]; empty pairs are skipped. *)
Fixpoint Split_amp (s : string) : list string :=
  match s with
  | EmptyString => [EmptyString]
  | String a r =>
      if Ascii.eqb a "&" then EmptyString :: Split_amp r
      else match Split_amp r with
           | hd :: tl => String a hd :: tl
           | [] => [String a EmptyString]
           end
  end.

Definition add_pair (m : Values) (pair : string) : Values :=
  if String.eqb pair "" then m
  else
    let (key, value) := split "=" true pair in
    <[key := (default [] (m !! key) ++ [value])%list]> m.

Definition ParseQuery (query : string) : Values :=
  fold_left add_pair (Split_amp query) ∅.

(** [(u *URL) Query()] *)
Definition Query (u : URL) : Values := ParseQuery (RawQuery u).

(** [QueryEscape] *)
Definition hex_digit (n : nat) : ascii :=
  if n <? 10 then ascii_of_nat (48 + n) else ascii_of_nat (55 + n).

Definition escape_query_char (c : ascii) : string :=
  if is_letter c || is_digit c || one_of "-_.~" c then String c EmptyString
  else if Ascii.eqb c " " then "+"
  else String "%" (String (hex_digit (code c / 16))
                          (String (hex_digit (code c mod 16)) EmptyString)).

Fixpoint QueryEscape (s : string) : string :=
  match s with
  | EmptyString => EmptyString
  | String c r => escape_query_char c +:+ QueryEscape r
  end.

(** insertion into a list of keys kept in increasing byte order, the
    order of [sort.Strings] *)
Fixpoint insert_key (k : string) (l : list string) : list string :=
  match l with
  | [] => [k]
  | x :: rest => if String.leb k x then k :: l else x :: insert_key k rest
  end.

Definition sorted_keys (v : Values) : list string :=
  fold_right insert_key [] (map fst (map_to_list v)).

(** [(v Values) Encode()] *)
Definition Encode (v : Values) : string :=
  let pairs :=
    flat_map (fun k =>
      map (fun x => QueryEscape k +:+ "=" +:+ QueryEscape x)
          (default [] (v !! k)))
      (sorted_keys v) in
  fold_left (fun buf p => if String.eqb buf "" then p else buf +:+ "&" +:+ p)
            pairs EmptyString.

End NetURL.
(** * A concrete platform

    An in-memory world to run the downloader on: registry files and
    cached indexes by path, remote objects by URL, and a disk.  The
    imported functions are given simple executable definitions ([net/url]
    by the model above). *)
Module Demo.

Record DemoWorld : Type := mkDemoWorld {
  registries : gmap string RepoFile;
  indexes : gmap string IndexFile;
  remote : gmap string string;
  disk : gmap string string
}.

(** An HTTP client is identified by the arguments it was built from:
    URL, certificate, key and CA file. *)
Definition DemoClient : Type := (string * string * string * string)%type.

Definition platform : Platform :=
  {| World := DemoWorld;
     HTTPClient := DemoClient;
     OtherGetter := Empty_set;
     Providers := unit;
     Signatory := string |}.

Local Existing Instance platform.

Definition missing (what : string) : error := Foreign (what +:+ ": no such file").

(** [filepath.Base] on slash-separated paths *)
Fixpoint strip_slashes (rev : list ascii) : list ascii :=
  match rev with
  | c :: rest => if Ascii.eqb c "/" then strip_slashes rest else rev
  | [] => []
  end.

Definition Base (path : string) : string :=
  if String.eqb path "" then "."
  else
    let stripped :=
      string_of_list_ascii (List.rev (strip_slashes (List.rev (list_ascii_of_string path)))) in
    let last := List.last (NetURL.Split_slash stripped) EmptyString in
    if String.eqb last "" then "/" else last.

(** [filepath.Join] of a clean directory and a file name *)
Definition Join (dir name : string) : string :=
  if String.eqb dir "" then name else dir +:+ "/" +:+ name.

(** [filepath.Ext]: from the last dot of the last element on *)
Fixpoint from_last_dot (s : string) : option string :=
  match s with
  | EmptyString => None
  | String a r =>
      match from_last_dot r with
      | Some t => Some t
      | None => if Ascii.eqb a "." then Some s else None
      end
  end.

Definition Ext (path : string) : string :=
  default EmptyString (from_last_dot (List.last (NetURL.Split_slash path) EmptyString)).

(** [IndexFile.Get], without semantic-version constraints: the first
    listed version of the chart when [version] is empty, the first one
    with that very version string otherwise. *)
Definition Get_version (i : IndexFile) (name version : string) : Result ChartVersion :=
  match Entries i !! name with
  | None => Err (Foreign "no chart name found")
  | Some vs =>
      match List.find (fun cv => String.eqb version "" || String.eqb (cv_Version cv) version) vs with
      | Some cv => Ok cv
      | None => Err (Foreign "no chart version found")
      end
  end.

Definition fresh_getter (url cert key ca : string) : HTTPGetter :=
  mkHTTPGetter (url, cert, key, ca) "" "".

Definition fetch (g : Getter) (url : string) (w : DemoWorld)
  : Result string * DemoWorld :=
  match remote w !! url with
  | Some body => (Ok body, w)
  | None => (Err (Foreign ("404 " +:+ url)), w)
  end.

Definition write (filename data : string) (w : DemoWorld)
  : option error * DemoWorld :=
  (None, mkDemoWorld (registries w) (indexes w) (remote w)
                     (<[filename := data]> (disk w))).

Definition stat (path : string) (w : DemoWorld) : Result FileInfo :=
  match disk w !! path with
  | Some _ => Ok (mkFileInfo false)
  | None => Err (missing path)
  end.

(** A provenance file is taken to vouch for an archive when it reads
    "signed:" followed by the archive. *)
Definition verify (sig path provfile : string) (w : DemoWorld)
  : option Verification * option error :=
  match disk w !! path, disk w !! provfile with
  | Some archive, Some prov =>
      if String.eqb prov ("signed:" +:+ archive)
      then (Some (mkVerification (Some sig) archive path), None)
      else (Some (mkVerification None archive path),
            Some (Foreign "sha256 sum does not match"))
  | _, _ => (None, Some (missing provfile))
  end.

(** The imported functions on this platform.  [urlutil.Equal] is taken
    to be equality of the two strings; a getter answers with the remote
    object at the URL, whatever its credentials; writing a file always
    succeeds; only files exist on the disk. *)
Definition externals : Externals :=
  {| url_Parse := NetURL.Parse;
     url_ResolveReference := NetURL.ResolveReference;
     url_Query := NetURL.Query;
     Values_Encode := NetURL.Encode;
     url_String := NetURL.String_;
     filepath_Base := Base;
     filepath_Join := Join;
     filepath_Ext := Ext;
     strings_ToLower := NetURL.ToLower;
     RepositoryFile := fun home => home +:+ "/repository/repositories.yaml";
     CacheIndex := fun home name => home +:+ "/repository/cache/" +:+ name +:+ "-index.yaml";
     repo_LoadFile := fun path (w : World) =>
       match registries w !! path with
       | Some rf => Ok rf
       | None => Err (missing path)
       end;
     repo_LoadIndexFile := fun path (w : World) =>
       match indexes w !! path with
       | Some i => Ok i
       | None => Err (missing path)
       end;
     IndexFile_Get := Get_version;
     newClient := fun cfg _ _ =>
       Ok (GetterHTTP (fresh_getter (EntryURL cfg) (CertFile cfg) (KeyFile cfg) (CAFile cfg)));
     NewHTTPGetter := fun url cert key ca => Ok (fresh_getter url cert key ca);
     Getter_Get := fetch;
     urlutil_Equal := String.eqb;
     ioutil_WriteFile := write;
     os_Stat := stat;
     provenance_NewFromKeyring := fun keyring _ _ =>
       if String.eqb keyring "" then Err (missing "keyring") else Ok keyring;
     Signatory_Verify := verify |}.

Local Existing Instance externals.

(** Two repositories.  Both indexes list [foo_url]; the first candidate
    of "foo" in "stable" is relative. *)
Definition stable : Entry :=
  mkEntry "stable" "stable-index.yaml" "https://example.com/repo?token=x"
          "alice" "s3cret" "" "" "".

Definition mirror : Entry :=
  mkEntry "mirror" "mirror-index.yaml" "https://mirror.example.org/charts/"
          "bob" "hunter2" "" "" "".

Definition foo_url : string := "https://cdn.example.com/foo-1.2.3.tgz".

(** An archive that no index lists. *)
Definition bar_url : string := "https://files.example.net/pub/bar-0.1.0.tgz".

Definition foo : ChartVersion :=
  mkChartVersion "foo" "1.2.3" ["charts/foo-1.2.3.tgz"; foo_url] "sha256:f00".

Definition mysql_url : string := "https://mirror.example.org/charts/mysql-0.3.0.tgz".

Definition mysql : ChartVersion :=
  mkChartVersion "mysql" "0.3.0" [mysql_url; foo_url] "sha256:abc".

Definition bare : ChartVersion :=
  mkChartVersion "bare" "0.0.1" [] "sha256:000".

Definition qux : ChartVersion :=
  mkChartVersion "qux" "0.1.0" ["charts/qux-0.1.0.tgz?sig=abc"] "sha256:9e7".

Definition stable_index : IndexFile :=
  mkIndexFile (<["foo" := [foo]]> (<["bare" := [bare]]> (<["qux" := [qux]]> ∅))).

Definition mirror_index : IndexFile :=
  mkIndexFile (<["mysql" := [mysql]]> ∅).

Definition home : string := "/home/helm".

Definition world0 : DemoWorld :=
  mkDemoWorld
    (<[home +:+ "/repository/repositories.yaml" := mkRepoFile [stable; mirror]]> ∅)
    (<[home +:+ "/repository/cache/stable-index.yaml" := stable_index]>
     (<[home +:+ "/repository/cache/mirror-index.yaml" := mirror_index]> ∅))
    (<[foo_url := "FOO"]>
     (<["https://example.com/repo/charts/foo-1.2.3.tgz?token=x" := "FOO"]>
      (<[bar_url := "BAR"]>
       (<["https://example.com/repo/charts/qux-0.1.0.tgz?token=x" := "QUX"]>
        (<["https://example.com/repo/charts/qux-0.1.0.tgz?token=x.prov" := "signed:QUUX"]>
         ∅)))))
    ∅.

(** The same world after [data] was written to [filename]. *)
Definition written (filename data : string) (w : DemoWorld) : DemoWorld :=
  snd (write filename data w).

Definition downloader (v : VerificationStrategy) (user pass : string)
  : ChartDownloader :=
  mkChartDownloader v "pubring.gpg" home tt user pass.

(** The repository object and the getter of "stable", and the URLs that
    "stable/foo" and "stable/qux" resolve to. *)
Definition stable_repository : ChartRepository :=
  mkChartRepository (Some stable)
    (GetterHTTP (fresh_getter (EntryURL stable) "" "" "")).

Definition stable_getter : HTTPGetter :=
  mkHTTPGetter (EntryURL stable, "", "", "") "alice" "s3cret".

Definition stable_base : URL :=
  mkURL "https" "" None "example.com" "/repo" "" false "token=x" "".

Definition foo_final : URL :=
  mkURL "https" "" None "example.com" "/repo/charts/foo-1.2.3.tgz" ""
        false "token=x" "".

Definition qux_candidate : URL :=
  mkURL "" "" None "" "charts/qux-0.1.0.tgz" "" false "sig=abc" "".

Definition qux_final : URL :=
  mkURL "https" "" None "example.com" "/repo/charts/qux-0.1.0.tgz" ""
        false "token=x" "".

(** Two downloads under [VerifyIfPossible]: "foo" has no provenance
    file on the server, the one of "qux" does not match its archive. *)
Definition foo_run : Downloaded * State :=
  DownloadTo (downloader VerifyIfPossible "" "") "stable/foo" "" "/tmp" (start world0).

Definition qux_run : Downloaded * State :=
  DownloadTo (downloader VerifyIfPossible "" "") "stable/qux" "" "/tmp" (start world0).

End Demo.

(** * A platform with failures

    The concrete platform again, with a disk on which some paths cannot
    be written and one path is a directory, and worlds whose registry
    or server differ from [Demo.world0]. *)
Module Faulty.

Import Demo.
Local Existing Instance platform.

Definition unwritable : list string :=
  ["/readonly/foo-1.2.3.tgz"; "/halfway/qux-0.1.0.tgz.prov"].

Definition directories : list string := ["/tmp/unpacked.tgz"].

Definition listed_in (paths : list string) (path : string) : bool :=
  existsb (String.eqb path) paths.

Definition write_checked (filename data : string) (w : DemoWorld)
  : option error * DemoWorld :=
  if listed_in unwritable filename then (Some (Foreign "permission denied"), w)
  else write filename data w.

Definition stat_checked (path : string) (w : DemoWorld) : Result FileInfo :=
  if listed_in directories path then Ok (mkFileInfo true) else stat path w.

(** [Demo.externals] with the two functions above. *)
Definition externals : Externals :=
  {| url_Parse := NetURL.Parse;
     url_ResolveReference := NetURL.ResolveReference;
     url_Query := NetURL.Query;
     Values_Encode := NetURL.Encode;
     url_String := NetURL.String_;
     filepath_Base := Base;
     filepath_Join := Join;
     filepath_Ext := Ext;
     strings_ToLower := NetURL.ToLower;
     RepositoryFile := @RepositoryFile platform Demo.externals;
     CacheIndex := @CacheIndex platform Demo.externals;
     repo_LoadFile := @repo_LoadFile platform Demo.externals;
     repo_LoadIndexFile := @repo_LoadIndexFile platform Demo.externals;
     IndexFile_Get := Get_version;
     newClient := @newClient platform Demo.externals;
     NewHTTPGetter := @NewHTTPGetter platform Demo.externals;
     Getter_Get := fetch;
     urlutil_Equal := String.eqb;
     ioutil_WriteFile := write_checked;
     os_Stat := stat_checked;
     provenance_NewFromKeyring := @provenance_NewFromKeyring platform Demo.externals;
     Signatory_Verify := verify |}.

(** A registry with a repository whose index was never cached, and one
    with a repository entry without URL ahead of a usable one of the
    same name. *)
Definition ghost : Entry :=
  mkEntry "ghost" "ghost-index.yaml" "https://ghost.example.org/" "" "" "" "" "".

Definition blank : Entry := mkEntry "mirror" "" "" "" "" "" "" "".

Definition with_registry (repos : list Entry) (w : DemoWorld) : DemoWorld :=
  mkDemoWorld
    (<[home +:+ "/repository/repositories.yaml" := mkRepoFile repos]> (registries w))
    (indexes w) (remote w) (disk w).

Definition world_ghost : DemoWorld := with_registry [stable; ghost; mirror] world0.

Definition world_blank : DemoWorld := with_registry [stable; blank; mirror] world0.

(** A server on which the provenance file of "qux" matches its archive. *)
Definition world_signed : DemoWorld :=
  mkDemoWorld (registries world0) (indexes world0)
    (<["https://example.com/repo/charts/qux-0.1.0.tgz?token=x.prov" := "signed:QUX"]>
       (remote world0))
    (disk world0).

(** A disk that holds an archive and its provenance file. *)
Definition world_stored : DemoWorld :=
  written "/tmp/qux-0.1.0.tgz.prov" "signed:QUX"
    (written "/tmp/qux-0.1.0.tgz" "QUX" world_signed).

(** The URL that "mirror/mysql" resolves to. *)
Definition mysql_final : URL :=
  mkURL "https" "" None "mirror.example.org" "/charts/mysql-0.3.0.tgz" ""
        false "" "".

Definition mirror_repository : ChartRepository :=
  mkChartRepository (Some mirror)
    (GetterHTTP (fresh_getter (EntryURL mirror) "" "" "")).

(** The repository "stable" registered with a base URL whose path ends
    in a slash. *)
Definition stable_slash : Entry :=
  mkEntry "stable" "stable-index.yaml" "https://example.com/repo/?token=x"
          "alice" "s3cret" "" "" "".

Definition stable_slash_repository : ChartRepository :=
  mkChartRepository (Some stable_slash)
    (GetterHTTP (fresh_getter (EntryURL stable_slash) "" "" "")).

Definition world_slash : DemoWorld := with_registry [stable_slash; mirror] world0.

(** The getter that "mirror/mysql" resolves to. *)
Definition mysql_getter : HTTPGetter :=
  mkHTTPGetter ("mirror/mysql", "", "", "") "bob" "hunter2".

(** Downloaders without caller-level credentials, one per strategy used
    below. *)
Definition never : ChartDownloader := downloader VerifyNever "" "".
Definition later : ChartDownloader := downloader VerifyLater "" "".
Definition always : ChartDownloader := downloader VerifyAlways "" "".

End Faulty.

(** * Properties *)
Section Properties.

Context `{P : Platform} `{E : !Externals}.

Local Open Scope go_scope.
Local Open Scope list_scope.

(** ** Helper facts *)

Lemma nonempty_length (s : string) :
  Nat.ltb 0 (String.length s) = true <-> s <> "".
Proof.
  destruct s as [|a s]; cbn.
  - split; [discriminate | intros Hs; exfalso; apply Hs; reflexivity].
  - split; [discriminate | reflexivity].
Qed.

Lemma absolute_test (u : URL) :
  absolute u ->
  IsAbs u && Nat.ltb 0 (String.length (Host u))
          && Nat.ltb 0 (String.length (Path u)) = true.
Proof.
  intros (Ha & Hh & Hp).
  rewrite Ha. apply nonempty_length in Hh. apply nonempty_length in Hp.
  rewrite Hh, Hp. reflexivity.
Qed.

Lemma version_lists_spec (u : string) (ver : ChartVersion) :
  version_lists u ver = true <->
  exists dl, In dl (URLs ver) /\ urlutil_Equal u dl = true.
Proof. unfold version_lists. apply existsb_exists. Qed.

(** The boolean triple loop finds a hit exactly when the index lists
    the URL. *)
Lemma index_lists_spec (u : string) (i : IndexFile) :
  index_lists u i = true <-> listed u i.
Proof.
  unfold index_lists, listed. rewrite existsb_exists. split.
  - intros ([name versions] & Hin & Hex). simpl in Hex.
    apply existsb_exists in Hex as (ver & Hver & Hlists).
    apply version_lists_spec in Hlists as (dl & Hdl & Heq).
    exists name, versions, ver, dl. repeat split; try assumption.
    apply elem_of_map_to_list. apply list_elem_of_In. exact Hin.
  - intros (name & versions & ver & dl & Hlook & Hver & Hdl & Heq).
    exists (name, versions). split.
    + apply list_elem_of_In. apply elem_of_map_to_list. exact Hlook.
    + simpl. apply existsb_exists. exists ver. split; [exact Hver|].
      apply version_lists_spec. exists dl. split; assumption.
Qed.

Lemma index_lists_false (u : string) (i : IndexFile) :
  index_lists u i = false <-> ~ listed u i.
Proof.
  rewrite <- index_lists_spec.
  destruct (index_lists u i); split; intros Hx; congruence.
Qed.

Lemma loads_inj (c : ChartDownloader) (rc : Entry) (w : World) (i j : IndexFile) :
  loads c rc w i -> loads c rc w j -> i = j.
Proof. intros [_ Hi] [_ Hj]. congruence. Qed.

(** One step of the scan over a repository that loads and does not list
    the URL moves on to the next one. *)
Lemma scan_loop_skip (c : ChartDownloader) (u : string) (rc : Entry)
  (rest : list Entry) (w : World) :
  disowns c u rc w -> scan_loop c u (rc :: rest) w = scan_loop c u rest w.
Proof.
  intros (i & [[cl Hcl] Hload] & Hnot). simpl. unfold NewChartRepository.
  rewrite Hcl. simpl. rewrite Hload.
  apply index_lists_false in Hnot. rewrite Hnot. reflexivity.
Qed.

Lemma scan_loop_prefix (c : ChartDownloader) (u : string) (pre rest : list Entry)
  (w : World) :
  (forall rc, In rc pre -> disowns c u rc w) ->
  scan_loop c u (pre ++ rest) w = scan_loop c u rest w.
Proof.
  induction pre as [|rc pre IH]; intros Hpre; [reflexivity|].
  change ((rc :: pre) ++ rest) with (rc :: (pre ++ rest)).
  rewrite scan_loop_skip by (apply Hpre; left; reflexivity).
  apply IH. intros rc' Hin. apply Hpre. right. exact Hin.
Qed.

Lemma scan_loop_hit (c : ChartDownloader) (u : string) (rc : Entry)
  (rest : list Entry) (w : World) :
  owns c u rc w -> scan_loop c u (rc :: rest) w = Ok rc.
Proof.
  intros (i & [[cl Hcl] Hload] & Hyes). simpl. unfold NewChartRepository.
  rewrite Hcl. simpl. rewrite Hload.
  apply index_lists_spec in Hyes. rewrite Hyes. reflexivity.
Qed.

Lemma scan_loop_unreadable (c : ChartDownloader) (u : string) (rc : Entry)
  (rest : list Entry) (w : World) (e : error) :
  unreadable c rc w e ->
  scan_loop c u (rc :: rest) w = Err (Wrap e no_cached_repo).
Proof.
  intros [[cl Hcl] Hload]. simpl. unfold NewChartRepository.
  rewrite Hcl. simpl. rewrite Hload. reflexivity.
Qed.

Lemma scan_loop_no_owner (c : ChartDownloader) (u : string) (repos : list Entry)
  (w : World) :
  (forall rc, In rc repos -> disowns c u rc w) ->
  scan_loop c u repos w = Err ErrNoOwnerRepo.
Proof.
  intros Hall. rewrite <- (app_nil_r repos).
  rewrite scan_loop_prefix by exact Hall. reflexivity.
Qed.

(** ** The credential merge *)

(** C6: the effective credentials are computed field by field: the
    caller-level username (resp. password) of the downloader is used
    when it is set (non-empty), an unset field falls back to the value
    configured in the repository entry, and with both caller-level
    fields set the pair is exactly the caller's. *)
Theorem credentials_merge_fieldwise (c : ChartDownloader) (cfg : Entry)
  (cl : Getter) :
  let creds := getRepoCredentials c (Some (mkChartRepository (Some cfg) cl)) in
  (Username c <> "" -> fst creds = Username c) /\
  (Username c = "" -> fst creds = EntryUsername cfg) /\
  (Password c <> "" -> snd creds = Password c) /\
  (Password c = "" -> snd creds = EntryPassword cfg) /\
  (Username c <> "" -> Password c <> "" -> creds = (Username c, Password c)).
Proof.
  unfold getRepoCredentials; cbn.
  destruct (String.eqb_spec (Username c) "") as [Hu|Hu];
    destruct (String.eqb_spec (Password c) "") as [Hp|Hp]; cbn;
    repeat split; intros; congruence.
Qed.

(** ** The owner-repository scan *)

(** C7: the scan walks the registry in its configured order.  When all
    repositories before [rc] load and do not list the URL, then: if the
    index of [rc] lists a URL equal to it under [urlutil.Equal], the
    scan returns [rc], whatever follows [rc] in the registry (so a URL
    listed by several indexes yields the first of them); and if the
    index of [rc] cannot be loaded, the scan stops with the loader's
    error wrapped, which is not the no-owner sentinel. *)
Theorem scan_first_owner_in_registry_order (c : ChartDownloader) (u : string)
  (rf : RepoFile) (w : World) (pre post : list Entry) (rc : Entry) :
  Repositories rf = pre ++ rc :: post ->
  (forall rc', In rc' pre -> disowns c u rc' w) ->
  (owns c u rc w -> scanReposForURL c u rf w = Ok rc) /\
  (forall e, unreadable c rc w e ->
     scanReposForURL c u rf w = Err (Wrap e no_cached_repo) /\
     is_ErrNoOwnerRepo (Wrap e no_cached_repo) = false /\
     Wrap e no_cached_repo <> ErrNoOwnerRepo).
Proof.
  intros Hrepos Hpre. unfold scanReposForURL. rewrite Hrepos.
  rewrite scan_loop_prefix by exact Hpre. split.
  - apply scan_loop_hit.
  - intros e He. rewrite (scan_loop_unreadable c u rc post w e He).
    repeat split. discriminate.
Qed.

(** ** Literal URLs *)

(** C9: for a reference that parses to a URL with a scheme, a host and
    a non-empty path, the version argument is not consulted: any two
    version strings give the same resolution, and the same download. *)
Theorem version_ignored_for_absolute_URL (c : ChartDownloader)
  (ref v1 v2 : string) (w : World) (u : URL) :
  url_Parse ref = Ok u ->
  absolute u ->
  ResolveChartVersionAndGetRepo c ref v1 w = ResolveChartVersionAndGetRepo c ref v2 w /\
  (forall dest s, DownloadTo c ref v1 dest s = DownloadTo c ref v2 dest s).
Proof.
  intros Hparse Habs.
  assert (Hres : forall w', ResolveChartVersionAndGetRepo c ref v1 w'
                            = ResolveChartVersionAndGetRepo c ref v2 w').
  { intros w'. unfold ResolveChartVersionAndGetRepo. rewrite Hparse.
    destruct (repo_LoadFile _ w'); [|reflexivity].
    destruct (NewHTTPGetter ref "" "" ""); [|reflexivity].
    rewrite (absolute_test u Habs). reflexivity. }
  split; [apply Hres|].
  intros dest s. unfold DownloadTo, bind, reading. rewrite Hres. reflexivity.
Qed.

(** ** Shorthand references *)

(** Stripping undoes one appended slash, so the path of [slashed] ends
    in one slash where the base path ended in one or none. *)
Lemma TrimSuffix_slash_appended (s : string) : TrimSuffix_slash (s +:+ "/") = s.
Proof.
  induction s as [|a s IH]; [reflexivity|].
  change (TrimSuffix_slash (String a (s +:+ "/")) = String a s).
  unfold TrimSuffix_slash; fold TrimSuffix_slash. rewrite IH.
  destruct s; reflexivity.
Qed.

Lemma slashed_once (repoURL : URL) :
  Path (slashed (slashed repoURL)) = Path (slashed repoURL).
Proof. unfold slashed; cbn. rewrite TrimSuffix_slash_appended. reflexivity. Qed.

Lemma append_cons (a : ascii) (s t : string) :
  String a s +:+ t = String a (s +:+ t).
Proof. reflexivity. Qed.

Lemma TrimSuffix_cons (a : ascii) (s : string) :
  TrimSuffix_slash (String a s) =
  match s with
  | EmptyString => if Ascii.eqb a "/" then EmptyString else String a EmptyString
  | String _ _ => String a (TrimSuffix_slash s)
  end.
Proof. destruct s; reflexivity. Qed.

Lemma TrimSuffix_without_slash (s : string) :
  ends_with_slash s = false -> TrimSuffix_slash s = s.
Proof.
  induction s as [|a s IH]; [reflexivity|].
  rewrite TrimSuffix_cons. destruct s as [|b s].
  - cbn. intros ->. reflexivity.
  - intros Hs. rewrite IH; [reflexivity | exact Hs].
Qed.

Lemma TrimSuffix_with_slash (s : string) :
  ends_with_slash s = true -> TrimSuffix_slash s +:+ "/" = s.
Proof.
  induction s as [|a s IH]; [discriminate|].
  rewrite TrimSuffix_cons. destruct s as [|b s].
  - cbn. intros Ha. rewrite Ha. apply Ascii.eqb_eq in Ha. subst. reflexivity.
  - intros Hs. rewrite append_cons, IH; [reflexivity | exact Hs].
Qed.

Lemma ends_with_slash_appended (s : string) : ends_with_slash (s +:+ "/") = true.
Proof.
  induction s as [|a s IH]; [reflexivity|].
  rewrite append_cons. destruct (s +:+ "/") eqn:Hs; [discriminate IH | exact IH].
Qed.

(** What line 247 does to the base URL, said without the function that
    does it: [stem] is the base path less one trailing slash, if it has
    one, and the new path is [stem] followed by one slash. *)
Lemma slashed_by_stem (repoURL : URL) :
  exists stem,
    (if ends_with_slash (Path repoURL)
     then Path repoURL = stem +:+ "/" else Path repoURL = stem) /\
    slashed repoURL = set_Path repoURL (stem +:+ "/").
Proof.
  exists (TrimSuffix_slash (Path repoURL)). split; [|reflexivity].
  destruct (ends_with_slash (Path repoURL)) eqn:Hs.
  - symmetry. apply TrimSuffix_with_slash. exact Hs.
  - symmetry. apply TrimSuffix_without_slash. exact Hs.
Qed.

Lemma NewChartRepository_Config (rc : Entry) (getters : Providers) (w : World)
  (r : ChartRepository) :
  NewChartRepository rc getters w = Ok r -> Config r = Some rc.
Proof.
  unfold NewChartRepository. destruct (newClient rc getters w); intros Hr;
    inversion Hr; reflexivity.
Qed.

(** Once the index lookup has matched, the outcome is decided by the
    candidate URLs of the matched entry. *)
Lemma resolve_matched (c : ChartDownloader) (ref version : string) (w : World)
  (u0 : URL) (g0 : HTTPGetter) (rc : Entry) (r : ChartRepository)
  (cv : ChartVersion) :
  matched c ref version w u0 g0 rc r cv ->
  ResolveChartVersionAndGetRepo c ref version w =
  let g := SetCredentials g0 (getRepoCredentials c (Some r)) in
  match URLs cv with
  | [] => (Some u0, Some r, Some g, Some (no_downloadable_URLs ref))
  | first :: _ => from_first_candidate c ref rc r g first
  end.
Proof.
  intros (rf & repoName & chartName & more & i &
          Hparse & Hfile & Hget & Hrel & Hsplit & Hpick & Hrepo & Hindex & Hcv).
  unfold ResolveChartVersionAndGetRepo. rewrite Hparse, Hfile, Hget, Hrel.
  unfold resolve_shorthand. rewrite Hsplit, Hpick, Hrepo.
  rewrite (NewChartRepository_Config _ _ _ _ Hrepo), Hindex, Hcv.
  destruct (URLs cv); reflexivity.
Qed.


Lemma resolve_relative (c : ChartDownloader) (ref version : string) (w : World)
  (u0 : URL) (g0 : HTTPGetter) (rc : Entry) (r : ChartRepository)
  (cv : ChartVersion) (first : string) (rest : list string) (u repoURL : URL) :
  matched c ref version w u0 g0 rc r cv ->
  URLs cv = first :: rest ->
  url_Parse first = Ok u ->
  IsAbs u = false ->
  url_Parse (EntryURL rc) = Ok repoURL ->
  ResolveChartVersionAndGetRepo c ref version w =
  match NewHTTPGetter (EntryURL rc) "" "" "" with
  | Err e => (Some (slashed repoURL), Some r, None, Some e)
  | Ok g1 =>
      (Some (set_RawQuery (url_ResolveReference (slashed repoURL) u)
                          (Values_Encode (url_Query repoURL))),
       Some r, Some (SetCredentials g1 (getRepoCredentials c (Some r))), None)
  end.
Proof.
  intros Hm Hfirst Hu Hrel Hbase.
  rewrite (resolve_matched _ _ _ _ _ _ _ _ _ Hm). cbv zeta. rewrite Hfirst.
  unfold from_first_candidate. rewrite Hu, Hrel. cbn.
  unfold rebase. rewrite Hbase. reflexivity.
Qed.

(** C10: when a relative first candidate is rebased, the query of the
    resolved URL is the encoding of the parsed query of the repository
    base URL and nothing else: whatever query the candidate carried is
    overwritten. *)
Theorem candidate_query_discarded (c : ChartDownloader) (ref version : string)
  (w : World) (u0 : URL) (g0 : HTTPGetter) (rc : Entry) (r : ChartRepository)
  (cv : ChartVersion) (first : string) (rest : list string) (u repoURL : URL)
  (final : URL) (r' : option ChartRepository) (g' : option HTTPGetter) :
  matched c ref version w u0 g0 rc r cv ->
  URLs cv = first :: rest ->
  url_Parse first = Ok u ->
  IsAbs u = false ->
  url_Parse (EntryURL rc) = Ok repoURL ->
  ResolveChartVersionAndGetRepo c ref version w = (Some final, r', g', None) ->
  RawQuery final = Values_Encode (url_Query repoURL) /\
  final = set_RawQuery (url_ResolveReference (slashed repoURL) u)
                       (Values_Encode (url_Query repoURL)).
Proof.
  intros Hm Hfirst Hu Hrel Hbase.
  rewrite (resolve_relative _ _ _ _ _ _ _ _ _ _ _ _ _ Hm Hfirst Hu Hrel Hbase).
  destruct (NewHTTPGetter (EntryURL rc) "" "" ""); intros Hres;
    inversion Hres; subst. split; reflexivity.
Qed.

(** ** The download and the verification policy *)

Lemma length_append (s t : string) :
  String.length (s +:+ t) = (String.length s + String.length t)%nat.
Proof.
  induction s as [|a s IH]; [reflexivity|].
  change (S (String.length (s +:+ t)) = S (String.length s + String.length t)).
  rewrite IH. reflexivity.
Qed.

Lemma append_suffix_neq (s t : string) : t <> "" -> s +:+ t <> s.
Proof.
  intros Ht Heq. apply (f_equal String.length) in Heq.
  rewrite length_append in Heq.
  destruct t; [congruence | cbn in Heq; lia].
Qed.

Ltac run :=
  unfold Get, WriteFile, Warning, bind, emit, acting, reading, ret; cbn.

(** case analysis on the outcome of every request and write in the goal *)
Ltac outcomes :=
  repeat (cbn; match goal with
    | |- context [Getter_Get ?g ?u ?w] =>
        destruct (Getter_Get g u w) as [[?|?] ?]
    | |- context [ioutil_WriteFile ?f ?d ?w] =>
        destruct (ioutil_WriteFile f d w) as [[?|] ?]
    end); cbn.

Ltac split_match :=
  match goal with
  | |- context [match ?x with _ => _ end] => destruct x eqn:?
  | |- context [if ?x then _ else _] => destruct x eqn:?
  end.

(** [VerifyChart] leaves the world alone and adds one event. *)
Lemma VerifyChart_state (path keyring : string) (s : State) :
  snd (VerifyChart path keyring s) =
  mkState (world s) (trace s ++ [EvVerifyChart path keyring]).
Proof.
  unfold VerifyChart. run. repeat (split_match; cbn); reflexivity.
Qed.

(** Its verdict depends on the world only. *)
Lemma VerifyChart_verdict (path keyring : string) (s : State) :
  fst (VerifyChart path keyring s) = fst (VerifyChart path keyring (start (world s))).
Proof.
  unfold VerifyChart. run. repeat (split_match; cbn); reflexivity.
Qed.

Section Run.

Variables (c : ChartDownloader) (ref version dest : string) (w : World).
Variables (u : URL) (r : ChartRepository) (g : HTTPGetter).
Variables (data : string) (w1 w2 : World).

Let destfile : string := filepath_Join dest (filepath_Base (Path u)).
Let provurl : string := url_String u +:+ ".prov".
Let fetched : list Event :=
  [EvGet (GetterHTTP g) (url_String u); EvWriteFile destfile data].

Hypothesis resolved :
  ResolveChartVersionAndGetRepo c ref version w = (Some u, Some r, Some g, None).
Hypothesis archive_fetched :
  Getter_Get (GetterHTTP g) (url_String u) w = (Ok data, w1).
Hypothesis archive_written :
  ioutil_WriteFile destfile data w1 = (None, w2).

(** With the archive on disk, the call continues at line 105. *)
Lemma download_reaches_provenance_step :
  DownloadTo c ref version dest (start w) =
  provenance_step c ref u r destfile (mkState w2 fetched).
Proof.
  unfold DownloadTo. run. rewrite resolved. cbn. rewrite archive_fetched. cbn.
  fold destfile. rewrite archive_written. reflexivity.
Qed.

Lemma step_never :
  Verify c = VerifyNever ->
  DownloadTo c ref version dest (start w) =
  ((destfile, Some empty_Verification, None), mkState w2 fetched).
Proof.
  intros Hv. rewrite download_reaches_provenance_step.
  unfold provenance_step. rewrite Hv. reflexivity.
Qed.

Lemma step_fetch_failed (e : error) (w3 : World) :
  Verify c <> VerifyNever ->
  Getter_Get (Client r) provurl w2 = (Err e, w3) ->
  DownloadTo c ref version dest (start w) =
  if iota (Verify c) =? iota VerifyAlways then
    ((destfile, Some empty_Verification,
      Some (Errorf "failed to fetch provenance %q" [provurl])),
     mkState w3 (fetched ++ [EvGet (Client r) provurl]))
  else
    ((destfile, Some empty_Verification, None),
     mkState w3 (fetched ++ [EvGet (Client r) provurl; EvWarning ref e])).
Proof.
  intros Hv Hget. rewrite download_reaches_provenance_step.
  unfold provenance_step. fold provurl.
  destruct (Verify c) eqn:Hs; try congruence; run; rewrite Hget; reflexivity.
Qed.

Lemma step_fetched (body : string) (w3 : World) :
  Verify c <> VerifyNever ->
  Getter_Get (Client r) provurl w2 = (Ok body, w3) ->
  exists tl,
    trace (snd (DownloadTo c ref version dest (start w))) =
    fetched ++ EvGet (Client r) provurl :: tl.
Proof.
  intros Hv Hget. rewrite download_reaches_provenance_step.
  unfold provenance_step. fold provurl.
  destruct (Verify c) eqn:Hs; try congruence; run; rewrite Hget; cbn;
    destruct (ioutil_WriteFile _ body w3) as [[e|] w4]; cbn;
    try (eexists; reflexivity).
  - match goal with |- context [VerifyChart ?p ?k ?s] =>
      pose proof (VerifyChart_state p k s) as Hst;
      destruct (VerifyChart p k s) as [[ver err] s'] end.
    cbn in *. subst s'. destruct err; cbn; eexists; reflexivity.
  - match goal with |- context [VerifyChart ?p ?k ?s] =>
      pose proof (VerifyChart_state p k s) as Hst;
      destruct (VerifyChart p k s) as [[ver err] s'] end.
    cbn in *. subst s'. destruct err; cbn; eexists; reflexivity.
Qed.

Lemma step_verified (body : string) (w3 w4 : World) :
  Verify c <> VerifyNever ->
  Verify c <> VerifyLater ->
  Getter_Get (Client r) provurl w2 = (Ok body, w3) ->
  ioutil_WriteFile (destfile +:+ ".prov") body w3 = (None, w4) ->
  let stored :=
    fetched ++ [EvGet (Client r) provurl; EvWriteFile (destfile +:+ ".prov") body] in
  let verdict := fst (VerifyChart destfile (Keyring c) (start w4)) in
  DownloadTo c ref version dest (start w) =
  ((destfile, fst verdict, snd verdict),
   mkState w4 (stored ++ [EvVerifyChart destfile (Keyring c)])).
Proof.
  intros Hn Hl Hget Hwrite stored verdict.
  rewrite download_reaches_provenance_step.
  unfold provenance_step. fold provurl.
  destruct (Verify c) eqn:Hs; try congruence; run; rewrite Hget; cbn;
    rewrite Hwrite; cbn.
  - match goal with |- context [VerifyChart ?p ?k ?s] =>
      pose proof (VerifyChart_state p k s) as Hst;
      pose proof (VerifyChart_verdict p k s) as Hvd;
      destruct (VerifyChart p k s) as [[ver err] s'] end.
    cbn in *. subst s'. unfold verdict. rewrite <- Hvd. destruct err; reflexivity.
  - match goal with |- context [VerifyChart ?p ?k ?s] =>
      pose proof (VerifyChart_state p k s) as Hst;
      pose proof (VerifyChart_verdict p k s) as Hvd;
      destruct (VerifyChart p k s) as [[ver err] s'] end.
    cbn in *. subst s'. unfold verdict. rewrite <- Hvd. destruct err; reflexivity.
Qed.

Lemma step_later (body : string) (w3 w4 : World) :
  Verify c = VerifyLater ->
  Getter_Get (Client r) provurl w2 = (Ok body, w3) ->
  ioutil_WriteFile (destfile +:+ ".prov") body w3 = (None, w4) ->
  DownloadTo c ref version dest (start w) =
  ((destfile, Some empty_Verification, None),
   mkState w4 (fetched ++ [EvGet (Client r) provurl;
                           EvWriteFile (destfile +:+ ".prov") body])).
Proof.
  intros Hv Hget Hwrite. rewrite download_reaches_provenance_step.
  unfold provenance_step. fold provurl. rewrite Hv. run.
  rewrite Hget. cbn. rewrite Hwrite. reflexivity.
Qed.

(** C4: once the reference is resolved and the archive is fetched and
    written, [DownloadTo] sends a request for the provenance file
    exactly when the strategy is not [VerifyNever]; and when that
    request fails, the call returns an error exactly when the strategy
    is [VerifyAlways], while under [VerifyIfPossible] and [VerifyLater]
    it prints a warning and returns the archive path with an empty
    verification and no error, after the archive was written. *)
Theorem provenance_fetch_policy :
  let run := DownloadTo c ref version dest (start w) in
  (provenance_fetched u (trace (snd run)) <-> Verify c <> VerifyNever) /\
  (forall e w3,
     Getter_Get (Client r) provurl w2 = (Err e, w3) ->
     (snd (fst run) <> None <-> Verify c = VerifyAlways) /\
     (Verify c = VerifyIfPossible \/ Verify c = VerifyLater ->
        fst run = (destfile, Some empty_Verification, None) /\
        warned (trace (snd run)) /\
        trace (snd run) =
          fetched ++ [EvGet (Client r) provurl; EvWarning ref e])).
Proof.
  intros run. split.
  - split.
    + intros [g' Hin] Hnever. unfold run in Hin.
      rewrite (step_never Hnever) in Hin. cbn in Hin.
      destruct Hin as [Heq|[Heq|[]]]; [|discriminate].
      inversion Heq as [[Hg Hurl]].
      symmetry in Hurl. revert Hurl. apply append_suffix_neq. discriminate.
    + intros Hv. unfold provenance_fetched, run. fold provurl.
      destruct (Getter_Get (Client r) provurl w2) as [[body|e] w3] eqn:Hget.
      * destruct (step_fetched body w3 Hv Hget) as [tl ->].
        exists (Client r). apply in_or_app. right. left. reflexivity.
      * rewrite (step_fetch_failed e w3 Hv Hget).
        exists (Client r). destruct (iota (Verify c) =? iota VerifyAlways);
          cbn; right; right; left; reflexivity.
  - intros e w3 Hget. unfold run.
    destruct (Verify c) eqn:Hs.
    + rewrite (step_never Hs). cbn. split.
      * split; [intros Hx; exfalso; apply Hx; reflexivity | discriminate].
      * intros [Hx|Hx]; discriminate.
    + assert (Hv : Verify c <> VerifyNever) by congruence.
      rewrite (step_fetch_failed e w3 Hv Hget), Hs. cbn. split.
      * split; [intros Hx; exfalso; apply Hx; reflexivity | discriminate].
      * intros _. repeat split. exists ref, e. right. right. right. left. reflexivity.
    + assert (Hv : Verify c <> VerifyNever) by congruence.
      rewrite (step_fetch_failed e w3 Hv Hget), Hs. cbn. split.
      * split; [reflexivity | discriminate].
      * intros [Hx|Hx]; discriminate.
    + assert (Hv : Verify c <> VerifyNever) by congruence.
      rewrite (step_fetch_failed e w3 Hv Hget), Hs. cbn. split.
      * split; [intros Hx; exfalso; apply Hx; reflexivity | discriminate].
      * intros _. repeat split. exists ref, e. right. right. right. left. reflexivity.
Qed.

Section Stored.

Variables (body : string) (w3 w4 : World).

Hypothesis provenance_received :
  Getter_Get (Client r) provurl w2 = (Ok body, w3).
Hypothesis provenance_written :
  ioutil_WriteFile (destfile +:+ ".prov") body w3 = (None, w4).

(** Once the archive and its provenance file are fetched and written,
    [DownloadTo] calls [VerifyChart] exactly when the strategy is
    neither [VerifyNever] nor [VerifyLater]; and when it is called and
    fails, [DownloadTo] returns that very error, with the archive path
    and whatever verification [VerifyChart] returned. *)
Lemma verification_once_stored :
  let run := DownloadTo c ref version dest (start w) in
  (verifier_invoked (trace (snd run)) <->
     Verify c <> VerifyNever /\ Verify c <> VerifyLater) /\
  (Verify c <> VerifyNever -> Verify c <> VerifyLater ->
   forall ver err,
     fst (VerifyChart destfile (Keyring c) (start w4)) = (ver, Some err) ->
     fst run = (destfile, ver, Some err)).
Proof.
  intros run. split.
  - split.
    + intros (path & keyring & Hin). unfold run in Hin.
      destruct (Verify c) eqn:Hs; try (split; discriminate); exfalso.
      * rewrite (step_never Hs) in Hin. cbn in Hin.
        destruct Hin as [Hx|[Hx|[]]]; discriminate.
      * rewrite (step_later body w3 w4 Hs provenance_received provenance_written) in Hin.
        cbn in Hin. destruct Hin as [Hx|[Hx|[Hx|[Hx|[]]]]]; discriminate.
    + intros [Hn Hl]. unfold run.
      rewrite (step_verified body w3 w4 Hn Hl provenance_received provenance_written).
      exists destfile, (Keyring c). cbn.
      right. right. right. right. left. reflexivity.
  - intros Hn Hl ver err Hverdict. unfold run.
    rewrite (step_verified body w3 w4 Hn Hl provenance_received provenance_written).
    cbn. rewrite Hverdict. reflexivity.
Qed.

End Stored.

End Run.

(** Whatever happens before, a provenance request is only ever sent
    under a strategy other than [VerifyNever] ... *)
Lemma provenance_fetch_only_if_enabled (c : ChartDownloader)
  (ref version dest : string) (w : World) (u : URL)
  (r : option ChartRepository) (g : option HTTPGetter) (err : option error) :
  ResolveChartVersionAndGetRepo c ref version w = (Some u, r, g, err) ->
  provenance_fetched u (trace (snd (DownloadTo c ref version dest (start w)))) ->
  Verify c <> VerifyNever.
Proof.
  intros Hres [g' Hin] Hnever. revert Hin.
  unfold DownloadTo. run. rewrite Hres.
  assert (Hne : forall x, EvGet x (url_String u) <> EvGet g' (url_String u +:+ ".prov")).
  { intros x Heq. inversion Heq as [[Hg Hurl]]. symmetry in Hurl. revert Hurl.
    apply append_suffix_neq. discriminate. }
  unfold provenance_step. rewrite Hnever. run.
  destruct err, r, g; cbn; try tauto; outcomes; intros Hin;
    repeat (destruct Hin as [Hin|Hin]; [first [discriminate | eapply Hne; eassumption]|]);
    contradiction.
Qed.

(** ... and [VerifyChart] is only ever called under [VerifyIfPossible]
    or [VerifyAlways]. *)
Lemma verifier_only_if_enabled (c : ChartDownloader)
  (ref version dest : string) (w : World) :
  verifier_invoked (trace (snd (DownloadTo c ref version dest (start w)))) ->
  Verify c <> VerifyNever /\ Verify c <> VerifyLater.
Proof.
  intros (path & keyring & Hin).
  destruct (Verify c) eqn:Hs; try (split; discriminate); exfalso; revert Hin;
    unfold DownloadTo, provenance_step; rewrite Hs; run;
    destruct (ResolveChartVersionAndGetRepo c ref version w) as [[[u r] g] err];
    destruct err, u, r, g; cbn; try tauto; outcomes; intros Hin;
    repeat (destruct Hin as [Hin|Hin]; [discriminate|]); contradiction.
Qed.

(** C5, as amended: [DownloadTo] calls [VerifyChart] only if the
    strategy is neither [VerifyNever] nor [VerifyLater], whatever
    happens in the call; once the archive and its provenance file are
    fetched and written, it calls it if and only if the strategy is
    neither of the two; and whenever the verifier is then called and
    fails, [DownloadTo] returns that very error, with the archive path
    and whatever verification the verifier returned, under
    [VerifyIfPossible] as under [VerifyAlways]. *)
Theorem verification_policy (c : ChartDownloader) (ref version dest : string)
  (w : World) :
  let run := DownloadTo c ref version dest (start w) in
  (verifier_invoked (trace (snd run)) ->
     Verify c <> VerifyNever /\ Verify c <> VerifyLater) /\
  (forall u r g data w1 w2 body w3 w4,
     ResolveChartVersionAndGetRepo c ref version w = (Some u, Some r, Some g, None) ->
     Getter_Get (GetterHTTP g) (url_String u) w = (Ok data, w1) ->
     ioutil_WriteFile (destination dest u) data w1 = (None, w2) ->
     Getter_Get (Client r) (url_String u +:+ ".prov") w2 = (Ok body, w3) ->
     ioutil_WriteFile (destination dest u +:+ ".prov") body w3 = (None, w4) ->
     (verifier_invoked (trace (snd run)) <->
        Verify c <> VerifyNever /\ Verify c <> VerifyLater) /\
     (Verify c <> VerifyNever -> Verify c <> VerifyLater ->
      forall ver err,
        fst (VerifyChart (destination dest u) (Keyring c) (start w4)) = (ver, Some err) ->
        fst run = (destination dest u, ver, Some err))).
Proof.
  intros run. split.
  - apply verifier_only_if_enabled.
  - intros u r g data w1 w2 body w3 w4 Hres Hget Hwrite Hprov Hstore.
    exact (verification_once_stored c ref version dest w u r g data w1 w2
             Hres Hget Hwrite body w3 w4 Hprov Hstore).
Qed.

(** ** Literal URLs without an owner *)

(** What the code does with a literal URL that no index lists: the
    getter built from the reference gets the caller-level credentials,
    the repository object has no [Config], and the sentinel is
    returned as the error of the call ... *)
Lemma resolve_no_owner (c : ChartDownloader) (ref version : string) (w : World)
  (u : URL) (rf : RepoFile) (g : HTTPGetter) :
  url_Parse ref = Ok u ->
  absolute u ->
  repo_LoadFile (RepositoryFile (HelmHome c)) w = Ok rf ->
  NewHTTPGetter ref "" "" "" = Ok g ->
  (forall rc, In rc (Repositories rf) -> disowns c ref rc w) ->
  let g' := SetCredentials g (Username c, Password c) in
  ResolveChartVersionAndGetRepo c ref version w =
  (Some u, Some (mkChartRepository None (GetterHTTP g')), Some g',
   Some ErrNoOwnerRepo).
Proof.
  intros Hparse Habs Hfile Hget Hnone g'.
  unfold ResolveChartVersionAndGetRepo.
  rewrite Hparse, Hfile, Hget, (absolute_test u Habs).
  unfold resolve_absolute, scanReposForURL.
  rewrite (scan_loop_no_owner c ref _ w Hnone). reflexivity.
Qed.

(** ... so that [DownloadTo] returns it without any request. *)
Lemma download_no_owner (c : ChartDownloader) (ref version dest : string)
  (w : World) (u : URL) (rf : RepoFile) (g : HTTPGetter) :
  url_Parse ref = Ok u ->
  absolute u ->
  repo_LoadFile (RepositoryFile (HelmHome c)) w = Ok rf ->
  NewHTTPGetter ref "" "" "" = Ok g ->
  (forall rc, In rc (Repositories rf) -> disowns c ref rc w) ->
  DownloadTo c ref version dest (start w) = (("", None, Some ErrNoOwnerRepo), start w).
Proof.
  intros Hparse Habs Hfile Hget Hnone. unfold DownloadTo. run.
  rewrite (resolve_no_owner c ref version w u rf g Hparse Habs Hfile Hget Hnone).
  reflexivity.
Qed.

(** What the code does with a literal URL whose owner is found: the
    repository object of the owner is returned, and the getter built
    from the reference is returned as it was built. *)
Lemma resolve_owner_found (c : ChartDownloader) (ref version : string) (w : World)
  (u : URL) (rf : RepoFile) (g : HTTPGetter) (rc : Entry) (r : ChartRepository) :
  url_Parse ref = Ok u ->
  absolute u ->
  repo_LoadFile (RepositoryFile (HelmHome c)) w = Ok rf ->
  NewHTTPGetter ref "" "" "" = Ok g ->
  scanReposForURL c ref rf w = Ok rc ->
  NewChartRepository rc (Getters c) w = Ok r ->
  ResolveChartVersionAndGetRepo c ref version w = (Some u, Some r, Some g, None).
Proof.
  intros Hparse Habs Hfile Hget Hscan Hrepo.
  unfold ResolveChartVersionAndGetRepo.
  rewrite Hparse, Hfile, Hget, (absolute_test u Habs).
  unfold resolve_absolute. rewrite Hscan, Hrepo. reflexivity.
Qed.

(** A resolution without error returns no nil pointer: the nil
    dereferences of [DownloadTo] cannot happen. *)
Lemma resolve_success_nonnil (c : ChartDownloader) (ref version : string)
  (w : World) (u : option URL) (r : option ChartRepository)
  (g : option HTTPGetter) :
  ResolveChartVersionAndGetRepo c ref version w = (u, r, g, None) ->
  is_Some u /\ is_Some r /\ is_Some g.
Proof.
  unfold ResolveChartVersionAndGetRepo, resolve_absolute, resolve_shorthand,
    rebase, NewChartRepository.
  repeat (split_match; try discriminate); intros Hres; inversion Hres; subst;
    repeat split; eexists; reflexivity.
Qed.

End Properties.

(** * The concrete platform at work *)
Section Instances.

Import Demo.
Local Existing Instance platform.
Local Existing Instance externals.
Local Open Scope list_scope.

Ltac evaluate := vm_compute; reflexivity.

Ltac in_demo_index :=
  eexists; split;
  [ split; [eexists; reflexivity | evaluate]
  | first [ apply index_lists_spec; evaluate
          | apply index_lists_false; evaluate ] ].

(** A relative candidate on the concrete platform, for any base URL. *)
Lemma demo_candidate_rebased (c : ChartDownloader) (ref version : string)
  (w : DemoWorld) (u0 : URL) (g0 : HTTPGetter) (rc : Entry)
  (r : ChartRepository) (cv : ChartVersion) (rest : list string)
  (repoURL : URL) :
  matched c ref version w u0 g0 rc r cv ->
  URLs cv = "charts/foo-1.2.3.tgz" :: rest ->
  NetURL.Parse (EntryURL rc) = Ok repoURL ->
  exists r' g',
    ResolveChartVersionAndGetRepo c ref version w =
    (Some (set_RawQuery
             (NetURL.ResolveReference (slashed repoURL)
                (mkURL "" "" None "" "charts/foo-1.2.3.tgz" "" false "" ""))
             (NetURL.Encode (NetURL.Query repoURL))),
     r', g', None).
Proof.
  intros Hm Hfirst Hrepo.
  assert (Hcand : url_Parse "charts/foo-1.2.3.tgz"
                  = Ok (mkURL "" "" None "" "charts/foo-1.2.3.tgz" "" false "" ""))
    by evaluate.
  rewrite (resolve_relative c ref version w u0 g0 rc r cv _ rest _ _
             Hm Hfirst Hcand eq_refl Hrepo).
  cbn. do 2 eexists. reflexivity.
Qed.

(** C3: when the first candidate URL of the matched version has no
    scheme, the resolved URL is obtained thus: [stem] being the path of
    the repository base URL less one trailing slash (the path itself
    when it ends in none), the candidate is resolved against the base
    URL with path [stem] followed by exactly one slash, and the query
    of the result is replaced by the re-encoded query of the base URL;
    the getter is built from the base URL with the merged credentials.
    With [net/url] as modelled, the candidate "charts/foo-1.2.3.tgz"
    resolves to "https://example.com/repo/charts/foo-1.2.3.tgz?token=x"
    under the base "https://example.com/repo?token=x" and under the
    base "https://example.com/repo/?token=x" alike.  One slash only is
    stripped: under "https://example.com/repo//?token=x" the base path
    stays "/repo//" and the candidate resolves to
    "https://example.com/repo//charts/foo-1.2.3.tgz?token=x". *)
Theorem relative_candidate_rebased :
  (forall (P : Platform) (E : Externals) (c : ChartDownloader)
          (ref version : string) (w : World) (u0 : URL) (g0 : HTTPGetter)
          (rc : Entry) (r : ChartRepository) (cv : ChartVersion)
          (first : string) (rest : list string) (u repoURL : URL)
          (g1 : HTTPGetter),
     matched c ref version w u0 g0 rc r cv ->
     URLs cv = first :: rest ->
     url_Parse first = Ok u ->
     IsAbs u = false ->
     url_Parse (EntryURL rc) = Ok repoURL ->
     NewHTTPGetter (EntryURL rc) "" "" "" = Ok g1 ->
     exists stem,
       (if ends_with_slash (Path repoURL)
        then Path repoURL = stem +:+ "/" else Path repoURL = stem) /\
       ResolveChartVersionAndGetRepo c ref version w =
       (Some (set_RawQuery
                (url_ResolveReference (set_Path repoURL (stem +:+ "/")) u)
                (Values_Encode (url_Query repoURL))),
        Some r, Some (SetCredentials g1 (getRepoCredentials c (Some r))), None))
  /\
  (forall (c : ChartDownloader) (ref version : string) (w : DemoWorld)
          (u0 : URL) (g0 : HTTPGetter) (rc : Entry) (r : ChartRepository)
          (cv : ChartVersion) (rest : list string),
     matched c ref version w u0 g0 rc r cv ->
     URLs cv = "charts/foo-1.2.3.tgz" :: rest ->
     (EntryURL rc = "https://example.com/repo?token=x" \/
      EntryURL rc = "https://example.com/repo/?token=x" ->
      exists final r' g',
        ResolveChartVersionAndGetRepo c ref version w = (Some final, r', g', None) /\
        NetURL.String_ final = "https://example.com/repo/charts/foo-1.2.3.tgz?token=x") /\
     (EntryURL rc = "https://example.com/repo//?token=x" ->
      exists final r' g',
        ResolveChartVersionAndGetRepo c ref version w = (Some final, r', g', None) /\
        Path (slashed (mkURL "https" "" None "example.com" "/repo//" "" false "token=x" ""))
          = "/repo//" /\
        NetURL.String_ final = "https://example.com/repo//charts/foo-1.2.3.tgz?token=x")).
Proof.
  split.
  - intros P E c ref version w u0 g0 rc r cv first rest u repoURL g1
           Hm Hfirst Hu Hrel Hbase Hg.
    destruct (slashed_by_stem repoURL) as (stem & Hstem & Hslashed).
    exists stem. split; [exact Hstem|].
    rewrite (resolve_relative c ref version w u0 g0 rc r cv first rest u repoURL
               Hm Hfirst Hu Hrel Hbase), Hg, Hslashed. reflexivity.
  - intros c ref version w u0 g0 rc r cv rest Hm Hfirst. split.
    + intros [Hbase|Hbase].
      * destruct (demo_candidate_rebased c ref version w u0 g0 rc r cv rest
                    stable_base Hm Hfirst ltac:(rewrite Hbase; evaluate))
          as (r' & g' & Hres).
        do 3 eexists. split; [exact Hres | evaluate].
      * destruct (demo_candidate_rebased c ref version w u0 g0 rc r cv rest
                    (mkURL "https" "" None "example.com" "/repo/" "" false "token=x" "")
                    Hm Hfirst ltac:(rewrite Hbase; evaluate))
          as (r' & g' & Hres).
        do 3 eexists. split; [exact Hres | evaluate].
    + intros Hbase.
      destruct (demo_candidate_rebased c ref version w u0 g0 rc r cv rest
                  (mkURL "https" "" None "example.com" "/repo//" "" false "token=x" "")
                  Hm Hfirst ltac:(rewrite Hbase; evaluate))
        as (r' & g' & Hres).
      do 3 eexists. split; [exact Hres | split; evaluate].
Qed.

Lemma relative_candidate_rebased_witness :
  ResolveChartVersionAndGetRepo (downloader VerifyNever "" "") "stable/foo" "" world0
  = (Some foo_final, Some stable_repository, Some stable_getter, None)
  /\ NetURL.String_ foo_final = "https://example.com/repo/charts/foo-1.2.3.tgz?token=x"
  /\ exists final r' g',
       ResolveChartVersionAndGetRepo (downloader VerifyNever "" "") "stable/foo" ""
         Faulty.world_slash = (Some final, r', g', None) /\
       NetURL.String_ final = "https://example.com/repo/charts/foo-1.2.3.tgz?token=x".
Proof.
  assert (Hm : matched (downloader VerifyNever "" "") "stable/foo" "" world0
                 (mkURL "" "" None "" "stable/foo" "" false "" "")
                 (fresh_getter "stable/foo" "" "" "") stable stable_repository foo).
  { exists (mkRepoFile [stable; mirror]), "stable", "foo", [], stable_index.
    repeat split; evaluate. }
  assert (Hs : matched (downloader VerifyNever "" "") "stable/foo" "" Faulty.world_slash
                 (mkURL "" "" None "" "stable/foo" "" false "" "")
                 (fresh_getter "stable/foo" "" "" "") Faulty.stable_slash
                 Faulty.stable_slash_repository foo).
  { exists (mkRepoFile [Faulty.stable_slash; mirror]), "stable", "foo", [], stable_index.
    repeat split; evaluate. }
  split; [|split; [evaluate|]].
  - destruct (proj1 relative_candidate_rebased platform externals _ _ _ _ _ _ _ _ _
                "charts/foo-1.2.3.tgz" [foo_url]
                (mkURL "" "" None "" "charts/foo-1.2.3.tgz" "" false "" "")
                stable_base (fresh_getter (EntryURL stable) "" "" "") Hm
                eq_refl ltac:(evaluate) eq_refl ltac:(evaluate) ltac:(evaluate))
      as (stem & Hstem & Hres).
    cbn in Hstem. subst stem. rewrite Hres. evaluate.
  - exact (proj1 (proj2 relative_candidate_rebased _ _ _ _ _ _ _ _ _ [foo_url]
                    Hs eq_refl) (or_intror eq_refl)).
Defined.

(** C1 (the code departs from it): [bar_url] has a scheme, a host and
    a path, no index lists it, and the archive is there to be fetched.
    The resolution builds the getter from the reference alone, with the
    caller-level credentials, and leaves the repository without a
    [Config]; but it returns the sentinel as its error, and
    [DownloadTo] gives that error back without sending any request. *)
Theorem no_owner_is_returned_as_error :
  let c := downloader VerifyNever "" "" in
  let g := fresh_getter bar_url "" "" "" in
  remote world0 !! bar_url = Some "BAR" /\
  scanReposForURL c bar_url (mkRepoFile [stable; mirror]) world0 = Err ErrNoOwnerRepo /\
  ResolveChartVersionAndGetRepo c bar_url "" world0 =
    (Some (mkURL "https" "" None "files.example.net" "/pub/bar-0.1.0.tgz" ""
                 false "" ""),
     Some (mkChartRepository None (GetterHTTP g)), Some g, Some ErrNoOwnerRepo) /\
  DownloadTo c bar_url "" "/tmp" (start world0)
    = (("", None, Some ErrNoOwnerRepo), start world0).
Proof. repeat split; evaluate. Qed.

(** C2 (the code departs from it): [foo_url] is listed by the index of
    "stable", whose entry carries the credentials alice/s3cret.  The
    resolution returns the repository object of "stable", yet the getter
    it returns carries no credentials at all: neither the repository's
    (first run, no caller-level credentials) nor the caller's (second
    run); the shorthand path, on the same repository, binds them. *)
Theorem owner_found_credentials_not_bound :
  let u := mkURL "https" "" None "cdn.example.com" "/foo-1.2.3.tgz" "" false "" "" in
  let g := fresh_getter foo_url "" "" "" in
  scanReposForURL (downloader VerifyNever "" "") foo_url
                  (mkRepoFile [stable; mirror]) world0 = Ok stable /\
  getRepoCredentials (downloader VerifyNever "" "") (Some stable_repository)
    = ("alice", "s3cret") /\
  ResolveChartVersionAndGetRepo (downloader VerifyNever "" "") foo_url "" world0
    = (Some u, Some stable_repository, Some g, None) /\
  ResolveChartVersionAndGetRepo (downloader VerifyNever "carol" "pw") foo_url "" world0
    = (Some u, Some stable_repository, Some g, None) /\
  (username g, password g) = ("", "") /\
  ResolveChartVersionAndGetRepo (downloader VerifyNever "" "") "stable/foo" "" world0
    = (Some foo_final, Some stable_repository, Some stable_getter, None) /\
  (username stable_getter, password stable_getter) = ("alice", "s3cret").
Proof. repeat split; evaluate. Qed.

Lemma credentials_merge_fieldwise_witness :
  getRepoCredentials (downloader VerifyNever "carol" "") (Some stable_repository)
  = ("carol", "s3cret") /\
  getRepoCredentials (downloader VerifyNever "carol" "pw") (Some stable_repository)
  = ("carol", "pw").
Proof.
  split.
  - destruct (@credentials_merge_fieldwise platform (downloader VerifyNever "carol" "") stable
                (GetterHTTP (fresh_getter (EntryURL stable) "" "" "")))
      as (Hu & _ & _ & Hp & _).
    apply injective_projections; [apply Hu; discriminate | apply Hp; reflexivity].
  - destruct (@credentials_merge_fieldwise platform (downloader VerifyNever "carol" "pw") stable
                (GetterHTTP (fresh_getter (EntryURL stable) "" "" "")))
      as (_ & _ & _ & _ & Hboth).
    apply Hboth; discriminate.
Defined.

Lemma scan_first_owner_in_registry_order_witness :
  scanReposForURL (downloader VerifyNever "" "") mysql_url
                  (mkRepoFile [stable; mirror]) world0 = Ok mirror /\
  scanReposForURL (downloader VerifyNever "" "") foo_url
                  (mkRepoFile [stable; mirror]) world0 = Ok stable.
Proof.
  split.
  - apply (proj1 (@scan_first_owner_in_registry_order platform externals (downloader VerifyNever "" "")
                    mysql_url (mkRepoFile [stable; mirror]) world0
                    [stable] [] mirror eq_refl
                    ltac:(intros rc [<-|[]]; in_demo_index)));
      in_demo_index.
  - apply (proj1 (@scan_first_owner_in_registry_order platform externals (downloader VerifyNever "" "")
                    foo_url (mkRepoFile [stable; mirror]) world0
                    [] [mirror] stable eq_refl
                    ltac:(intros rc [])));
      in_demo_index.
Defined.

Lemma version_ignored_for_absolute_URL_witness :
  ResolveChartVersionAndGetRepo (downloader VerifyNever "" "") foo_url "1.2.3" world0
  = ResolveChartVersionAndGetRepo (downloader VerifyNever "" "") foo_url "9.9.9" world0.
Proof.
  apply (proj1 (@version_ignored_for_absolute_URL platform externals (downloader VerifyNever "" "")
                  foo_url "1.2.3" "9.9.9" world0
                  (mkURL "https" "" None "cdn.example.com" "/foo-1.2.3.tgz" ""
                         false "" "")
                  ltac:(evaluate)
                  ltac:(split; [reflexivity | split; discriminate]))).
Defined.


Lemma candidate_query_discarded_witness :
  RawQuery qux_candidate = "sig=abc" /\
  RawQuery qux_final = NetURL.Encode (NetURL.Query stable_base) /\
  NetURL.String_ qux_final = "https://example.com/repo/charts/qux-0.1.0.tgz?token=x".
Proof.
  split; [reflexivity|]. split; [|evaluate].
  apply (proj1 (@candidate_query_discarded platform externals (downloader VerifyNever "" "") "stable/qux" ""
           world0 (mkURL "" "" None "" "stable/qux" "" false "" "")
           (fresh_getter "stable/qux" "" "" "") stable stable_repository qux
           "charts/qux-0.1.0.tgz?sig=abc" [] qux_candidate stable_base qux_final
           (Some stable_repository) (Some stable_getter)
           ltac:(exists (mkRepoFile [stable; mirror]), "stable", "qux", [], stable_index;
                 repeat split; evaluate)
           eq_refl ltac:(evaluate) eq_refl ltac:(evaluate) ltac:(evaluate))).
Defined.

Lemma provenance_fetch_policy_witness :
  provenance_fetched foo_final (trace (snd foo_run)) /\
  fst foo_run = ("/tmp/foo-1.2.3.tgz", Some empty_Verification, None) /\
  warned (trace (snd foo_run)).
Proof.
  destruct (@provenance_fetch_policy platform externals
              (downloader VerifyIfPossible "" "") "stable/foo" "" "/tmp" world0
              foo_final stable_repository stable_getter "FOO" world0
              (written "/tmp/foo-1.2.3.tgz" "FOO" world0)
              ltac:(evaluate) ltac:(evaluate) ltac:(evaluate))
    as [Hsent Hfailed].
  split; [apply Hsent; discriminate|].
  destruct (Hfailed
              (Foreign "404 https://example.com/repo/charts/foo-1.2.3.tgz?token=x.prov")
              (written "/tmp/foo-1.2.3.tgz" "FOO" world0) ltac:(evaluate))
    as [_ Hlenient].
  destruct (Hlenient (or_introl eq_refl)) as (Hresult & Hwarned & _).
  split; [exact Hresult | exact Hwarned].
Defined.

(** The claim as first stated does not hold of every call: under
    [VerifyIfPossible], neither [VerifyNever] nor [VerifyLater], the
    download of "stable/foo" succeeds without the verifier being
    called, its provenance file not being on the server. *)
Lemma verifier_skipped_on_lenient_success :
  Verify (downloader VerifyIfPossible "" "") = VerifyIfPossible /\
  fst foo_run = ("/tmp/foo-1.2.3.tgz", Some empty_Verification, None) /\
  ~ verifier_invoked (trace (snd foo_run)) /\
  ~ (verifier_invoked (trace (snd foo_run)) <->
       Verify (downloader VerifyIfPossible "" "") <> VerifyNever /\
       Verify (downloader VerifyIfPossible "" "") <> VerifyLater).
Proof.
  assert (Hnot : ~ verifier_invoked (trace (snd foo_run))).
  { intros (path & keyring & Hin). vm_compute in Hin.
    repeat (destruct Hin as [Hin|Hin]; [discriminate|]). exact Hin. }
  split; [reflexivity|]. split; [evaluate|]. split; [exact Hnot|].
  intros [_ Hcall]. apply Hnot. apply Hcall. split; discriminate.
Qed.

Lemma verification_policy_witness :
  verifier_invoked (trace (snd qux_run)) /\
  fst qux_run = ("/tmp/qux-0.1.0.tgz",
                 Some (mkVerification None "QUX" "/tmp/qux-0.1.0.tgz"),
                 Some (Foreign "sha256 sum does not match")).
Proof.
  destruct (proj2 (@verification_policy platform externals
              (downloader VerifyIfPossible "" "") "stable/qux" "" "/tmp" world0)
              qux_final stable_repository stable_getter "QUX" world0
              (written "/tmp/qux-0.1.0.tgz" "QUX" world0)
              "signed:QUUX"
              (written "/tmp/qux-0.1.0.tgz" "QUX" world0)
              (written "/tmp/qux-0.1.0.tgz.prov" "signed:QUUX"
                       (written "/tmp/qux-0.1.0.tgz" "QUX" world0))
              ltac:(evaluate) ltac:(evaluate) ltac:(evaluate)
              ltac:(evaluate) ltac:(evaluate))
    as [Hcalled Hfatal].
  split.
  - apply Hcalled. split; discriminate.
  - apply Hfatal; [discriminate | discriminate | evaluate].
Defined.

End Instances.

(** * Further properties of the code *)
Section MoreProperties.

Context `{P : Platform} `{E : !Externals}.

Local Open Scope go_scope.
Local Open Scope list_scope.

(** ** pickChartRepositoryConfigByName *)

(** X1: an entry returned by the lookup is an entry of the registry,
    bears the name asked for and has a non-empty URL. *)
Theorem pick_returns_named_entry_with_URL (name : string) (cfgs : list Entry)
  (rc : Entry) :
  pickChartRepositoryConfigByName name cfgs = Ok rc ->
  In rc cfgs /\ Name rc = name /\ EntryURL rc <> "".
Proof.
  induction cfgs as [|x rest IH]; cbn; [discriminate|].
  destruct (String.eqb_spec (Name x) name) as [Hname|Hname].
  - destruct (String.eqb_spec (EntryURL x) "") as [Hurl|Hurl]; [discriminate|].
    intros Hok. inversion Hok; subst. repeat split; auto.
  - intros Hok. destruct (IH Hok) as (Hin & Hn & Hu). repeat split; auto.
Qed.

(** X2: the first entry bearing the name decides: it is returned when
    its URL is non-empty, and when its URL is empty the lookup fails
    with "no URL found", whatever entries of the same name follow. *)
Theorem pick_first_named_entry_decides (name : string) (cfgs pre post : list Entry)
  (rc : Entry) :
  cfgs = pre ++ rc :: post ->
  (forall x, In x pre -> Name x <> name) ->
  Name rc = name ->
  pickChartRepositoryConfigByName name cfgs =
  if String.eqb (EntryURL rc) "" then
    Err (Errorf "no URL found for repository %s" [name])
  else Ok rc.
Proof.
  intros -> Hpre Hname. induction pre as [|x pre IH]; cbn.
  - rewrite <- Hname, String.eqb_refl. reflexivity.
  - destruct (String.eqb_spec (Name x) name) as [Hx|Hx].
    + exfalso. apply (Hpre x); [left; reflexivity | exact Hx].
    + apply IH. intros y Hy. apply Hpre. right. exact Hy.
Qed.

(** X3: the lookup fails with "repo ... not found" exactly when no
    entry of the registry bears the name. *)
Theorem pick_not_found_iff_unregistered (name : string) (cfgs : list Entry) :
  pickChartRepositoryConfigByName name cfgs = Err (Errorf "repo %s not found" [name])
  <-> (forall rc, In rc cfgs -> Name rc <> name).
Proof.
  induction cfgs as [|x rest IH]; cbn.
  - split; [intros _ rc [] | reflexivity].
  - destruct (String.eqb_spec (Name x) name) as [Hx|Hx].
    + split.
      * destruct (String.eqb (EntryURL x) ""); discriminate.
      * intros Hall. exfalso. apply (Hall x); [left; reflexivity | exact Hx].
    + rewrite IH. split.
      * intros Hall rc [<-|Hin]; [exact Hx | apply Hall; exact Hin].
      * intros Hall rc Hin. apply Hall. right. exact Hin.
Qed.

(** ** scanReposForURL *)

Lemma scan_loop_step (c : ChartDownloader) (u : string) (rc : Entry)
  (rest : list Entry) (w : World) :
  scan_loop c u (rc :: rest) w =
  match newClient rc (Getters c) w with
  | Err e => Err e
  | Ok _ =>
      match repo_LoadIndexFile (CacheIndex (HelmHome c) (Name rc)) w with
      | Err e => Err (Wrap e no_cached_repo)
      | Ok i => if index_lists u i then Ok rc else scan_loop c u rest w
      end
  end.
Proof.
  cbn. unfold NewChartRepository. destruct (newClient rc (Getters c) w); reflexivity.
Qed.

(** X4: the scan returns [rc] exactly when [rc] stands in the registry
    behind repositories that all load and do not list the URL, and
    itself loads and lists it. *)
Theorem scan_returns_exactly_first_owner (c : ChartDownloader) (u : string)
  (rf : RepoFile) (w : World) (rc : Entry) :
  scanReposForURL c u rf w = Ok rc <->
  exists pre post,
    Repositories rf = pre ++ rc :: post /\
    (forall rc', In rc' pre -> disowns c u rc' w) /\
    owns c u rc w.
Proof.
  unfold scanReposForURL. split.
  - generalize (Repositories rf) as repos.
    induction repos as [|x rest IH]; [discriminate|].
    rewrite scan_loop_step.
    destruct (newClient x (Getters c) w) as [cl|e] eqn:Hcl; [|discriminate].
    destruct (repo_LoadIndexFile _ w) as [i|e] eqn:Hload; [|discriminate].
    destruct (index_lists u i) eqn:Hlists.
    + intros Hok. inversion Hok; subst. exists [], rest.
      repeat split; [intros rc' [] |].
      exists i. split; [split; [exists cl; exact Hcl | exact Hload]|].
      apply index_lists_spec. exact Hlists.
    + intros Hok. destruct (IH Hok) as (pre & post & -> & Hpre & Hown).
      exists (x :: pre), post. repeat split; [|exact Hown].
      intros rc' [<-|Hin]; [|apply Hpre; exact Hin].
      exists i. split; [split; [exists cl; exact Hcl | exact Hload]|].
      apply index_lists_false. exact Hlists.
  - intros (pre & post & -> & Hpre & Hown).
    rewrite scan_loop_prefix by exact Hpre. apply scan_loop_hit. exact Hown.
Qed.

(** X5: a failed scan is of one of three kinds.  Either every
    repository loads and none lists the URL, and the error is the
    no-owner sentinel (so for an empty registry); or the scan stopped at
    the first repository whose getter cannot be constructed, with the
    constructor's error as it is; or it stopped at the first repository
    whose index cannot be read, with that error wrapped. *)
Theorem scan_failure_kinds (c : ChartDownloader) (u : string) (rf : RepoFile)
  (w : World) (e : error) :
  scanReposForURL c u rf w = Err e ->
  ((forall rc, In rc (Repositories rf) -> disowns c u rc w) /\ e = ErrNoOwnerRepo) \/
  (exists pre rc post,
     Repositories rf = pre ++ rc :: post /\
     (forall rc', In rc' pre -> disowns c u rc' w) /\
     (newClient rc (Getters c) w = Err e \/
      exists cause, unreadable c rc w cause /\ e = Wrap cause no_cached_repo)).
Proof.
  unfold scanReposForURL. generalize (Repositories rf) as repos.
  induction repos as [|x rest IH].
  - intros He. inversion He. left. split; [intros rc [] | reflexivity].
  - rewrite scan_loop_step.
    destruct (newClient x (Getters c) w) as [cl|e0] eqn:Hcl.
    + destruct (repo_LoadIndexFile _ w) as [i|e0] eqn:Hload.
      * destruct (index_lists u i) eqn:Hlists; [discriminate|].
        assert (Hx : disowns c u x w).
        { exists i. split; [split; [exists cl; exact Hcl | exact Hload]|].
          apply index_lists_false. exact Hlists. }
        intros He. destruct (IH He) as [[Hall ->]|(pre & rc & post & -> & Hpre & Hkind)].
        -- left. split; [|reflexivity].
           intros rc [<-|Hin]; [exact Hx | apply Hall; exact Hin].
        -- right. exists (x :: pre), rc, post. repeat split; [|exact Hkind].
           intros rc' [<-|Hin]; [exact Hx | apply Hpre; exact Hin].
      * intros He. inversion He; subst. right. exists [], x, rest.
        repeat split; [intros rc' [] |]. right. exists e0. split; [|reflexivity].
        split; [exists cl; exact Hcl | exact Hload].
    + intros He. inversion He; subst. right. exists [], x, rest.
      repeat split; [intros rc' [] |]. left. exact Hcl.
Qed.

(** ** The split of line 199 *)

Lemma has_slash_cons (a : ascii) (s : string) :
  has_slash (String a s) = Ascii.eqb a "/" || has_slash s.
Proof. reflexivity. Qed.

Lemma SplitN_cons (a : ascii) (rest : string) :
  SplitN_slash_2 (String a rest) =
  if Ascii.eqb a "/" then [EmptyString; rest]
  else match SplitN_slash_2 rest with
       | hd :: tl => String a hd :: tl
       | [] => [String a EmptyString]
       end.
Proof. reflexivity. Qed.

Lemma SplitN_without_slash (s : string) :
  has_slash s = false -> SplitN_slash_2 s = [s].
Proof.
  induction s as [|a s IH]; [reflexivity|].
  rewrite has_slash_cons, SplitN_cons. intros Hs.
  apply orb_false_iff in Hs as [Ha Hs]. rewrite Ha, (IH Hs). reflexivity.
Qed.

Lemma SplitN_join (a b : string) :
  has_slash a = false -> SplitN_slash_2 (a +:+ "/" +:+ b) = [a; b].
Proof.
  induction a as [|x a IH]; [reflexivity|].
  rewrite has_slash_cons, append_cons, SplitN_cons. intros Hs.
  apply orb_false_iff in Hs as [Hx Hs]. rewrite Hx, (IH Hs). reflexivity.
Qed.

(** X6: the split yields at most two pieces, and when it yields two,
    the first holds no slash and the two joined by a slash are the
    text again: the repository name is what stands before the first
    slash, the chart name all that follows it. *)
Theorem split_in_two_round_trip (s a b : string) (more : list string) :
  SplitN_slash_2 s = a :: b :: more ->
  more = [] /\ s = a +:+ "/" +:+ b /\ has_slash a = false.
Proof.
  revert a. induction s as [|x s IH]; intros a; [discriminate|].
  rewrite SplitN_cons. destruct (Ascii.eqb_spec x "/") as [->|Hx].
  - intros Heq. inversion Heq; subst. repeat split.
  - destruct (SplitN_slash_2 s) as [|hd tl] eqn:Hs; [discriminate|].
    intros Heq. inversion Heq; subst.
    destruct (IH hd eq_refl) as (-> & -> & Hhd).
    repeat split. rewrite has_slash_cons, Hhd.
    apply Ascii.eqb_neq in Hx. rewrite Hx. reflexivity.
Qed.

(** ** Failures of a shorthand resolution *)

(** X7: a reference that fails the test of line 173 and whose path
    holds no slash is rejected with the "repo_name/path_to_chart" error,
    which prints the parsed reference; no repository and no getter are
    returned. *)
Theorem reference_without_slash_rejected (c : ChartDownloader)
  (ref version : string) (w : World) (u0 : URL) (rf : RepoFile) (g0 : HTTPGetter) :
  url_Parse ref = Ok u0 ->
  repo_LoadFile (RepositoryFile (HelmHome c)) w = Ok rf ->
  NewHTTPGetter ref "" "" "" = Ok g0 ->
  IsAbs u0 && Nat.ltb 0 (String.length (Host u0))
           && Nat.ltb 0 (String.length (Path u0)) = false ->
  has_slash (Path u0) = false ->
  ResolveChartVersionAndGetRepo c ref version w =
  (Some u0, None, None,
   Some (Errorf
     "non-absolute URLs should be in form of repo_name/path_to_chart, got: %s"
     [url_String u0])).
Proof.
  intros Hparse Hfile Hget Hrel Hslash. unfold ResolveChartVersionAndGetRepo.
  rewrite Hparse, Hfile, Hget, Hrel. unfold resolve_shorthand.
  rewrite (SplitN_without_slash _ Hslash). reflexivity.
Qed.

Lemma resolve_shorthand_split (c : ChartDownloader) (ref version : string)
  (w : World) (u0 : URL) (rf : RepoFile) (g0 : HTTPGetter) (name chart : string) :
  shorthand c ref w u0 rf g0 name chart ->
  ResolveChartVersionAndGetRepo c ref version w =
  resolve_shorthand c ref version u0 rf g0 w /\
  SplitN_slash_2 (Path u0) = [name; chart].
Proof.
  intros (Hparse & Hfile & Hget & Hrel & Hpath & Hname).
  unfold ResolveChartVersionAndGetRepo. rewrite Hparse, Hfile, Hget, Hrel.
  split; [reflexivity|]. rewrite Hpath. apply SplitN_join. exact Hname.
Qed.

Lemma pick_skips_other_names (name : string) (pre rest : list Entry) :
  (forall x, In x pre -> Name x <> name) ->
  pickChartRepositoryConfigByName name (pre ++ rest) =
  pickChartRepositoryConfigByName name rest.
Proof.
  induction pre as [|x pre IH]; intros Hpre; [reflexivity|]. cbn.
  destruct (String.eqb_spec (Name x) name) as [Hx|Hx].
  - exfalso. apply (Hpre x); [left; reflexivity | exact Hx].
  - apply IH. intros y Hy. apply Hpre. right. exact Hy.
Qed.

(** X8: a shorthand reference naming a repository that the registry
    does not hold fails with "repo ... not found", and one whose
    repository entry has an empty URL with "no URL found"; in both
    cases neither a repository nor a getter is returned. *)
Theorem unregistered_repository_rejected (c : ChartDownloader)
  (ref version : string) (w : World) (u0 : URL) (rf : RepoFile) (g0 : HTTPGetter)
  (name chart : string) :
  shorthand c ref w u0 rf g0 name chart ->
  ((forall rc, In rc (Repositories rf) -> Name rc <> name) ->
   ResolveChartVersionAndGetRepo c ref version w =
   (Some u0, None, None, Some (Errorf "repo %s not found" [name]))) /\
  (forall pre rc post,
     Repositories rf = pre ++ rc :: post ->
     (forall x, In x pre -> Name x <> name) ->
     Name rc = name -> EntryURL rc = "" ->
     ResolveChartVersionAndGetRepo c ref version w =
     (Some u0, None, None, Some (Errorf "no URL found for repository %s" [name]))).
Proof.
  intros Hs. destruct (resolve_shorthand_split c ref version w _ _ _ _ _ Hs) as [-> Hsplit].
  unfold resolve_shorthand. rewrite Hsplit. split.
  - intros Hnone. rewrite <- (app_nil_r (Repositories rf)).
    rewrite (pick_skips_other_names name _ [] Hnone). reflexivity.
  - intros pre rc post Hrepos Hpre Hname Hurl.
    rewrite Hrepos, (pick_skips_other_names name pre _ Hpre). cbn.
    rewrite Hname, String.eqb_refl, Hurl. reflexivity.
Qed.

(** X9: when the repository is registered but its cached index cannot
    be read, the resolution fails with the loader's error wrapped in the
    hint to run 'helm repo update'; and when the index has no entry for
    the chart at the version, with the index's error wrapped in a
    message naming chart, version and repository.  Both failures return
    the repository object and the getter with the merged credentials. *)
Theorem index_failures_reported (c : ChartDownloader)
  (ref version : string) (w : World) (u0 : URL) (rf : RepoFile) (g0 : HTTPGetter)
  (name chart : string) (rc : Entry) (r : ChartRepository) :
  shorthand c ref w u0 rf g0 name chart ->
  pickChartRepositoryConfigByName name (Repositories rf) = Ok rc ->
  NewChartRepository rc (Getters c) w = Ok r ->
  let g := SetCredentials g0 (getRepoCredentials c (Some r)) in
  (forall e,
     repo_LoadIndexFile (CacheIndex (HelmHome c) (Name rc)) w = Err e ->
     ResolveChartVersionAndGetRepo c ref version w =
     (Some u0, Some r, Some g, Some (Wrap e no_cached_repo))) /\
  (forall i e,
     repo_LoadIndexFile (CacheIndex (HelmHome c) (Name rc)) w = Ok i ->
     IndexFile_Get i chart version = Err e ->
     ResolveChartVersionAndGetRepo c ref version w =
     (Some u0, Some r, Some g,
      Some (Wrapf e
        "chart %q matching %s not found in %s index. (try 'helm repo update')"
        [chart; version; Name rc]))).
Proof.
  intros Hs Hpick Hrepo g.
  destruct (resolve_shorthand_split c ref version w _ _ _ _ _ Hs) as [-> Hsplit].
  unfold resolve_shorthand. rewrite Hsplit, Hpick, Hrepo.
  rewrite (NewChartRepository_Config _ _ _ _ Hrepo). split.
  - intros e Hload. rewrite Hload. reflexivity.
  - intros i e Hload Hget. rewrite Hload, Hget. reflexivity.
Qed.

(** ** An absolute first candidate *)

(** X10: when the first candidate URL of the matched version has a
    scheme, it is the resolved URL as it parses; the base URL of the
    repository plays no part, and the getter is the one built from the
    reference, with the merged credentials. *)
Theorem absolute_candidate_kept (c : ChartDownloader) (ref version : string)
  (w : World) (u0 : URL) (g0 : HTTPGetter) (rc : Entry) (r : ChartRepository)
  (cv : ChartVersion) (first : string) (rest : list string) (u : URL) :
  matched c ref version w u0 g0 rc r cv ->
  URLs cv = first :: rest ->
  url_Parse first = Ok u ->
  IsAbs u = true ->
  ResolveChartVersionAndGetRepo c ref version w =
  (Some u, Some r, Some (SetCredentials g0 (getRepoCredentials c (Some r))), None).
Proof.
  intros Hm Hfirst Hu Habs.
  rewrite (resolve_matched _ _ _ _ _ _ _ _ _ Hm). cbv zeta. rewrite Hfirst.
  unfold from_first_candidate. rewrite Hu, Habs. reflexivity.
Qed.

(** ** No nil results on success *)

(** X11: a resolution that returns no error returns a URL, a
    repository and a getter, none of them nil, so that [DownloadTo]
    dereferences no nil pointer; and [ResolveChartVersion] then returns
    a URL and a getter. *)
Theorem successful_resolution_is_complete (c : ChartDownloader)
  (ref version : string) (w : World) :
  (forall u r g,
     ResolveChartVersionAndGetRepo c ref version w = (u, r, g, None) ->
     is_Some u /\ is_Some r /\ is_Some g) /\
  (forall u g,
     ResolveChartVersion c ref version w = (u, g, None) ->
     is_Some u /\ is_Some g).
Proof.
  split.
  - intros u r g. apply resolve_success_nonnil.
  - intros u g. unfold ResolveChartVersion.
    destruct (ResolveChartVersionAndGetRepo c ref version w) as [[[u' r'] g'] e'] eqn:Hres.
    destruct r' as [r'|]; intros Heq; inversion Heq; subst;
      destruct (resolve_success_nonnil c ref version w _ _ _ Hres) as (Hu & Hr & Hg).
    + split; [exact Hu | eexists; reflexivity].
    + destruct Hr as [x Hx]. discriminate.
Qed.

(** ** More on the credential merge *)

(** X12: without a repository, or with a repository that has no
    [Config], the caller-level pair is returned as it is; with a
    [Config], a field of the result is empty exactly when neither the
    caller nor the entry sets it. *)
Theorem credentials_empty_only_if_unset (c : ChartDownloader) (cl : Getter)
  (cfg : Entry) :
  getRepoCredentials c None = (Username c, Password c) /\
  getRepoCredentials c (Some (mkChartRepository None cl)) = (Username c, Password c) /\
  (fst (getRepoCredentials c (Some (mkChartRepository (Some cfg) cl))) = ""
     <-> Username c = "" /\ EntryUsername cfg = "") /\
  (snd (getRepoCredentials c (Some (mkChartRepository (Some cfg) cl))) = ""
     <-> Password c = "" /\ EntryPassword cfg = "").
Proof.
  unfold getRepoCredentials; cbn. repeat split;
    destruct (String.eqb_spec (Username c) "");
    destruct (String.eqb_spec (Password c) ""); cbn in *; intuition congruence.
Qed.

(** ** The trailing slash of the base path *)

(** X13: line 247 leaves a base path that ends in a slash as it is
    (only one slash is stripped, so a path ending in two keeps both)
    and appends a slash to any other; either way the path handed to
    [ResolveReference] ends in a slash. *)
Theorem base_path_ends_in_slash (repoURL : URL) :
  Path (slashed repoURL) =
    (if ends_with_slash (Path repoURL) then Path repoURL else Path repoURL +:+ "/") /\
  ends_with_slash (Path (slashed repoURL)) = true.
Proof.
  unfold slashed; cbn. split; [|apply ends_with_slash_appended].
  destruct (ends_with_slash (Path repoURL)) eqn:Hs.
  - apply TrimSuffix_with_slash. exact Hs.
  - rewrite TrimSuffix_without_slash by exact Hs. reflexivity.
Qed.

(** ** The repository object after a matched lookup *)

(** X14: after a matched lookup, whatever comes of the candidate URLs,
    the repository object returned is the one built for the registry
    entry, and its client is the one the getter constructor made for
    that entry: the merged credentials are set on the returned getter,
    never on the client through which [DownloadTo] requests the
    provenance file. *)
Theorem matched_repository_keeps_its_client (c : ChartDownloader)
  (ref version : string) (w : World) (u0 : URL) (g0 : HTTPGetter) (rc : Entry)
  (r : ChartRepository) (cv : ChartVersion) :
  matched c ref version w u0 g0 rc r cv ->
  exists u g err,
    ResolveChartVersionAndGetRepo c ref version w = (u, Some r, g, err) /\
    Config r = Some rc /\
    newClient rc (Getters c) w = Ok (Client r).
Proof.
  intros Hm. rewrite (resolve_matched _ _ _ _ _ _ _ _ _ Hm). cbv zeta.
  destruct Hm as (rf & repoName & chartName & more & i & _ & _ & _ & _ & _ & _ & Hrepo & _).
  assert (Hr : Config r = Some rc /\ newClient rc (Getters c) w = Ok (Client r)).
  { unfold NewChartRepository in Hrepo.
    destruct (newClient rc (Getters c) w); inversion Hrepo; subst. split; reflexivity. }
  unfold from_first_candidate, rebase.
  destruct (URLs cv) as [|first rest]; [do 3 eexists; split; [reflexivity | exact Hr]|].
  destruct (url_Parse first) as [u|e]; [|do 3 eexists; split; [reflexivity | exact Hr]].
  destruct (negb (IsAbs u)); [|do 3 eexists; split; [reflexivity | exact Hr]].
  destruct (url_Parse (EntryURL rc)) as [repoURL|e];
    [|do 3 eexists; split; [reflexivity | exact Hr]].
  destruct (NewHTTPGetter (EntryURL rc) "" "" "");
    do 3 eexists; (split; [reflexivity | exact Hr]).
Qed.

(** ** The events of a download *)

Ltac run :=
  unfold Get, WriteFile, Warning, bind, emit, acting, reading, ret; cbn.

Ltac outcomes :=
  repeat (cbn; match goal with
    | |- context [Getter_Get ?g ?u ?w] =>
        destruct (Getter_Get g u w) as [[?|?] ?] eqn:?
    | |- context [ioutil_WriteFile ?f ?d ?w] =>
        destruct (ioutil_WriteFile f d w) as [[?|] ?] eqn:?
    end); cbn.

Ltac verdict :=
  match goal with
  | |- context [VerifyChart ?p ?k ?s] =>
      let H := fresh "Hstate" in
      pose proof (VerifyChart_state p k s) as H;
      destruct (VerifyChart p k s) as [[? [?|]] ?]; cbn in H; subst; cbn
  end.

(** X15: the events of any call of [DownloadTo] come in the order of
    the code and stop where the call stops: the request for the
    archive, its write to [dest], the request for the provenance file at
    the archive URL followed by ".prov", through the client of the
    repository, then either a warning, or the write of the provenance
    file beside the archive and the call of the verifier.  So at most
    two files are written and at most two requests sent, and the
    provenance file is never fetched before the archive is written. *)
Theorem download_events_in_order (c : ChartDownloader)
  (ref version dest : string) (w : World) :
  let tr := trace (snd (DownloadTo c ref version dest (start w))) in
  tr = [] \/
  exists u r g data body cause,
    ResolveChartVersionAndGetRepo c ref version w = (Some u, Some r, Some g, None) /\
    (tr `prefix_of` [archive_request u g; archive_write dest u data;
                     provenance_request u r; provenance_write dest u body;
                     verification c dest u]
     \/ tr = [archive_request u g; archive_write dest u data;
              provenance_request u r; EvWarning ref cause]).
Proof.
  cbv zeta. unfold DownloadTo, provenance_step. run.
  destruct (ResolveChartVersionAndGetRepo c ref version w)
    as [[[[u|] [r|]] [g|]] [err|]]; cbn; try (left; reflexivity).
  right. exists u, r, g.
  unfold archive_request, archive_write, provenance_request, provenance_write,
    verification, destination.
  destruct (Verify c); outcomes; try verdict;
    first [ do 3 eexists; split; [reflexivity|]; left; eexists; reflexivity
          | do 3 eexists; split; [reflexivity|]; right; reflexivity ].
  Unshelve. all: first [exact EmptyString | exact ErrNoOwnerRepo].
Qed.

(** X16: under [VerifyNever] nothing but the archive is requested and
    written, and a call that returns no error returns the empty
    verification. *)
Theorem never_touches_only_the_archive (c : ChartDownloader)
  (ref version dest : string) (w : World) :
  Verify c = VerifyNever ->
  let run := DownloadTo c ref version dest (start w) in
  (trace (snd run) = [] \/
   exists u r g data,
     ResolveChartVersionAndGetRepo c ref version w = (Some u, Some r, Some g, None) /\
     trace (snd run) `prefix_of` [archive_request u g; archive_write dest u data]) /\
  (forall path ver, fst run = (path, ver, None) -> ver = Some empty_Verification).
Proof.
  intros Hnever. cbv zeta. unfold DownloadTo, provenance_step. run. rewrite Hnever.
  destruct (ResolveChartVersionAndGetRepo c ref version w)
    as [[[[u|] [r|]] [g|]] [err|]]; cbn;
    try (split; [left; reflexivity | discriminate]).
  unfold archive_request, archive_write, destination. outcomes.
  all: split;
    [|first [discriminate | intros path ver Heq; inversion Heq; reflexivity]].
  all: right; exists u, r, g; eexists; (split; [reflexivity|]); eexists; reflexivity.
  Unshelve. all: exact EmptyString.
Qed.

(** X17: [DownloadTo] returns no error only after the archive was
    fetched through the resolved getter and written without error, and
    the path it returns is the one the archive was written to: the base
    name of the resolved URL's path under [dest]. *)
Theorem success_means_archive_written (c : ChartDownloader)
  (ref version dest : string) (w : World) (path : string)
  (ver : option Verification) :
  fst (DownloadTo c ref version dest (start w)) = (path, ver, None) ->
  exists u r g data w1 w2 tl,
    ResolveChartVersionAndGetRepo c ref version w = (Some u, Some r, Some g, None) /\
    Getter_Get (GetterHTTP g) (url_String u) w = (Ok data, w1) /\
    ioutil_WriteFile (destination dest u) data w1 = (None, w2) /\
    path = destination dest u /\
    trace (snd (DownloadTo c ref version dest (start w))) =
      archive_request u g :: archive_write dest u data :: tl.
Proof.
  unfold DownloadTo, provenance_step. run.
  destruct (ResolveChartVersionAndGetRepo c ref version w)
    as [[[[u|] [r|]] [g|]] [err|]]; cbn; try discriminate.
  unfold archive_request, archive_write, destination.
  destruct (Getter_Get (GetterHTTP g) (url_String u) w) as [[data|e] w1] eqn:Hget;
    cbn; [|discriminate].
  destruct (ioutil_WriteFile _ data w1) as [[e|] w2] eqn:Hwrite; cbn; [discriminate|].
  intros Hres. exists u, r, g, data, w1, w2.
  match goal with
  | |- exists tl, _ /\ _ /\ _ /\ _ /\ ?T = _ =>
      enough (Hshape : path = filepath_Join dest (filepath_Base (Path u)) /\
                       exists tl, T = EvGet (GetterHTTP g) (url_String u)
                                      :: EvWriteFile (filepath_Join dest (filepath_Base (Path u))) data
                                      :: tl)
  end.
  { destruct Hshape as [Hpath [tl Htl]]. exists tl.
    repeat split; first [assumption | reflexivity]. }
  clear Hget Hwrite. revert Hres.
  destruct (Verify c); outcomes; try verdict; intros Hres; inversion Hres;
    (split; [reflexivity | eexists; reflexivity]).
Qed.

(** ** The outcomes of a download *)

Section Outcomes.

Variables (c : ChartDownloader) (ref version dest : string) (w : World).
Variables (u : URL) (r : ChartRepository) (g : HTTPGetter).

Hypothesis resolved :
  ResolveChartVersionAndGetRepo c ref version w = (Some u, Some r, Some g, None).

(** X18: a failed request for the archive ends the call with that
    error as it is, an empty path and nothing written; a failed write
    of the archive ends it with the write error and the path that could
    not be written.  Neither depends on the strategy, and nothing is
    asked of the provenance file. *)
Theorem archive_failures_are_fatal :
  (forall e w1,
     Getter_Get (GetterHTTP g) (url_String u) w = (Err e, w1) ->
     DownloadTo c ref version dest (start w) =
     (("", None, Some e), mkState w1 [archive_request u g])) /\
  (forall data w1 e w2,
     Getter_Get (GetterHTTP g) (url_String u) w = (Ok data, w1) ->
     ioutil_WriteFile (destination dest u) data w1 = (Some e, w2) ->
     DownloadTo c ref version dest (start w) =
     ((destination dest u, None, Some e),
      mkState w2 [archive_request u g; archive_write dest u data])).
Proof.
  unfold DownloadTo, destination. split.
  - intros e w1 Hget. run. rewrite resolved. cbn. rewrite Hget. reflexivity.
  - intros data w1 e w2 Hget Hwrite. run. rewrite resolved. cbn.
    rewrite Hget. cbn. rewrite Hwrite. reflexivity.
Qed.

Variables (data : string) (w1 w2 : World).

Hypothesis archive_fetched :
  Getter_Get (GetterHTTP g) (url_String u) w = (Ok data, w1).
Hypothesis archive_written :
  ioutil_WriteFile (destination dest u) data w1 = (None, w2).

Variables (body : string) (w3 : World).

Hypothesis provenance_received :
  Getter_Get (Client r) (url_String u +:+ ".prov") w2 = (Ok body, w3).

(** X19: when the provenance file is received but cannot be written,
    the call fails with the write error under every strategy that
    fetches it, the lenient ones included; it returns the archive path
    and a nil verification, and the verifier is not called. *)
Theorem provenance_write_failure_is_fatal (e : error) (w4 : World) :
  Verify c <> VerifyNever ->
  ioutil_WriteFile (destination dest u +:+ ".prov") body w3 = (Some e, w4) ->
  DownloadTo c ref version dest (start w) =
  ((destination dest u, None, Some e),
   mkState w4 [archive_request u g; archive_write dest u data;
               provenance_request u r; provenance_write dest u body]).
Proof.
  intros Hv Hwrite.
  rewrite (download_reaches_provenance_step c ref version dest w u r g data w1 w2
             resolved archive_fetched archive_written).
  unfold provenance_step, destination in *.
  destruct (Verify c); try congruence; run; rewrite provenance_received; cbn;
    rewrite Hwrite; reflexivity.
Qed.

Variable (w4 : World).

Hypothesis provenance_written :
  ioutil_WriteFile (destination dest u +:+ ".prov") body w3 = (None, w4).

(** X20: under [VerifyLater], with archive and provenance file fetched
    and written, the call succeeds with the empty verification and
    ends with the write of the provenance file: the verifier is not
    called. *)
Theorem later_stores_provenance_unverified :
  Verify c = VerifyLater ->
  DownloadTo c ref version dest (start w) =
  ((destination dest u, Some empty_Verification, None),
   mkState w4 [archive_request u g; archive_write dest u data;
               provenance_request u r; provenance_write dest u body]).
Proof.
  intros Hv.
  apply (step_later c ref version dest w u r g data w1 w2
           resolved archive_fetched archive_written body w3 w4 Hv
           provenance_received provenance_written).
Qed.

(** X21: under [VerifyIfPossible] and [VerifyAlways], with archive and
    provenance file fetched and written, a verifier that returns no
    error makes the call succeed with the verification the verifier
    returned; the verifier is called once, on the written archive, with
    the downloader's keyring, as the last event. *)
Theorem verified_download_returns_verification (ver : option Verification) :
  Verify c <> VerifyNever ->
  Verify c <> VerifyLater ->
  fst (VerifyChart (destination dest u) (Keyring c) (start w4)) = (ver, None) ->
  DownloadTo c ref version dest (start w) =
  ((destination dest u, ver, None),
   mkState w4 [archive_request u g; archive_write dest u data;
               provenance_request u r; provenance_write dest u body;
               verification c dest u]).
Proof.
  intros Hn Hl Hverdict.
  rewrite (step_verified c ref version dest w u r g data w1 w2
             resolved archive_fetched archive_written body w3 w4 Hn Hl
             provenance_received provenance_written).
  unfold destination in Hverdict. rewrite Hverdict. reflexivity.
Qed.

End Outcomes.

(** ** VerifyChart *)

(** X22: [VerifyChart] returns no error only if the path is that of an
    existing file that is not a directory and has the extension of a
    packed chart, the file of the same name followed by ".prov" exists,
    and the keyring loads; what it returns is then what the signatory's
    verification of the two files returns. *)
Theorem verifier_success_requires (path keyring : string) (s : State)
  (ver : option Verification) :
  fst (VerifyChart path keyring s) = (ver, None) ->
  exists fi fi' sig,
    os_Stat path (world s) = Ok fi /\ IsDir fi = false /\ isTar path = true /\
    os_Stat (path +:+ ".prov") (world s) = Ok fi' /\
    provenance_NewFromKeyring keyring "" (world s) = Ok sig /\
    Signatory_Verify sig path (path +:+ ".prov") (world s) = (ver, None).
Proof.
  unfold VerifyChart. run.
  destruct (os_Stat path (world s)) as [fi|e] eqn:Hstat; cbn; [|discriminate].
  destruct (IsDir fi) eqn:Hdir; cbn; [discriminate|].
  destruct (isTar path) eqn:Htar; cbn; [|discriminate].
  destruct (os_Stat (path +:+ ".prov") (world s)) as [fi'|e] eqn:Hprov; cbn; [|discriminate].
  destruct (provenance_NewFromKeyring keyring "" (world s)) as [sig|e] eqn:Hkey;
    cbn; [|discriminate].
  intros Hres. exists fi, fi', sig. repeat split; assumption.
Qed.

(** X23: the checks of [VerifyChart] come in a fixed order and each
    failure returns a nil verification: a path that cannot be examined
    gives the error of [os.Stat] itself; a directory is refused as an
    unpacked chart, whatever its name; a file without the extension of
    a packed chart is refused before its provenance file is looked for;
    a missing provenance file and a keyring that does not load give
    wrapped errors. *)
Theorem verifier_rejections (path keyring : string) (s : State) :
  (forall e, os_Stat path (world s) = Err e ->
     fst (VerifyChart path keyring s) = (None, Some e)) /\
  (forall fi, os_Stat path (world s) = Ok fi ->
     (IsDir fi = true ->
        fst (VerifyChart path keyring s) =
          (None, Some (New "unpacked charts cannot be verified"))) /\
     (IsDir fi = false ->
        (isTar path = false ->
           fst (VerifyChart path keyring s) =
             (None, Some (New "chart must be a tgz file"))) /\
        (isTar path = true ->
           (forall e, os_Stat (path +:+ ".prov") (world s) = Err e ->
              fst (VerifyChart path keyring s) =
                (None, Some (Wrapf e "could not load provenance file %s"
                                     [path +:+ ".prov"]))) /\
           (forall fi' e,
              os_Stat (path +:+ ".prov") (world s) = Ok fi' ->
              provenance_NewFromKeyring keyring "" (world s) = Err e ->
              fst (VerifyChart path keyring s) =
                (None, Some (Wrap e "failed to load keyring")))))).
Proof.
  unfold VerifyChart. run. split.
  - intros e ->. reflexivity.
  - intros fi ->. cbn. split.
    + intros ->. reflexivity.
    + intros ->. cbn. split.
      * intros ->. reflexivity.
      * intros ->. cbn. split.
        -- intros e ->. reflexivity.
        -- intros fi' e Hprov Hkey. rewrite Hprov. cbn. rewrite Hkey. reflexivity.
Qed.

End MoreProperties.

(** * The further properties at work *)
Section MoreInstances.

Import Demo Faulty.
Local Existing Instance platform.
Local Open Scope list_scope.

Ltac evaluate := vm_compute; reflexivity.
Ltac settle := first [evaluate | discriminate | (vm_compute; discriminate)].

Lemma stable_foo_matched :
  @matched platform Demo.externals never "stable/foo" "" world0
    (mkURL "" "" None "" "stable/foo" "" false "" "")
    (fresh_getter "stable/foo" "" "" "") stable stable_repository foo.
Proof.
  exists (mkRepoFile [stable; mirror]), "stable", "foo", [], stable_index.
  repeat split; evaluate.
Qed.

Lemma mirror_mysql_matched :
  @matched platform Demo.externals never "mirror/mysql" "" world0
    (mkURL "" "" None "" "mirror/mysql" "" false "" "")
    (fresh_getter "mirror/mysql" "" "" "") mirror mirror_repository mysql.
Proof.
  exists (mkRepoFile [stable; mirror]), "mirror", "mysql", [], mirror_index.
  repeat split; evaluate.
Qed.

Lemma pick_returns_named_entry_with_URL_witness :
  In mirror [stable; mirror] /\ Name mirror = "mirror" /\ EntryURL mirror <> "".
Proof.
  apply (pick_returns_named_entry_with_URL "mirror" [stable; mirror] mirror).
  evaluate.
Defined.

Lemma pick_first_named_entry_decides_witness :
  pickChartRepositoryConfigByName "mirror" [stable; blank; mirror]
  = Err (Errorf "no URL found for repository %s" ["mirror"]).
Proof.
  apply (pick_first_named_entry_decides "mirror" [stable; blank; mirror]
           [stable] [mirror] blank eq_refl).
  - intros x [<-|[]]. discriminate.
  - reflexivity.
Defined.

Lemma scan_failure_kinds_witness :
  ((forall rc, In rc [stable; ghost; mirror] ->
      @disowns platform Demo.externals never mysql_url rc world_ghost) /\
   Wrap (Foreign "/home/helm/repository/cache/ghost-index.yaml: no such file")
        no_cached_repo = ErrNoOwnerRepo) \/
  (exists pre rc post,
     [stable; ghost; mirror] = pre ++ rc :: post /\
     (forall rc', In rc' pre ->
        @disowns platform Demo.externals never mysql_url rc' world_ghost) /\
     (@newClient platform Demo.externals rc tt world_ghost
        = Err (Wrap (Foreign "/home/helm/repository/cache/ghost-index.yaml: no such file")
                    no_cached_repo) \/
      exists cause,
        @unreadable platform Demo.externals never rc world_ghost cause /\
        Wrap (Foreign "/home/helm/repository/cache/ghost-index.yaml: no such file")
             no_cached_repo = Wrap cause no_cached_repo)).
Proof.
  apply (@scan_failure_kinds platform Demo.externals never mysql_url
           (mkRepoFile [stable; ghost; mirror]) world_ghost).
  evaluate.
Defined.

Lemma split_in_two_round_trip_witness :
  @nil string = [] /\ "stable/charts/foo" = "stable" +:+ "/" +:+ "charts/foo" /\
  has_slash "stable" = false.
Proof.
  apply (split_in_two_round_trip "stable/charts/foo" "stable" "charts/foo" []).
  evaluate.
Defined.

Lemma reference_without_slash_rejected_witness :
  @ResolveChartVersionAndGetRepo platform Demo.externals never "mysql" "" world0 =
  (Some (mkURL "" "" None "" "mysql" "" false "" ""), None, None,
   Some (Errorf
     "non-absolute URLs should be in form of repo_name/path_to_chart, got: %s"
     ["mysql"])).
Proof.
  apply (@reference_without_slash_rejected platform Demo.externals never "mysql" ""
           world0 (mkURL "" "" None "" "mysql" "" false "" "")
           (mkRepoFile [stable; mirror]) (fresh_getter "mysql" "" "" ""));
    evaluate.
Defined.

Lemma unregistered_repository_rejected_witness :
  @ResolveChartVersionAndGetRepo platform Demo.externals never "nowhere/foo" "" world0 =
  (Some (mkURL "" "" None "" "nowhere/foo" "" false "" ""), None, None,
   Some (Errorf "repo %s not found" ["nowhere"])) /\
  @ResolveChartVersionAndGetRepo platform Demo.externals never "mirror/mysql" "" world_blank =
  (Some (mkURL "" "" None "" "mirror/mysql" "" false "" ""), None, None,
   Some (Errorf "no URL found for repository %s" ["mirror"])).
Proof.
  split.
  - apply (proj1 (@unregistered_repository_rejected platform Demo.externals never
             "nowhere/foo" "" world0 (mkURL "" "" None "" "nowhere/foo" "" false "" "")
             (mkRepoFile [stable; mirror]) (fresh_getter "nowhere/foo" "" "" "")
             "nowhere" "foo" ltac:(repeat split; evaluate))).
    intros rc [<-|[<-|[]]]; discriminate.
  - apply (proj2 (@unregistered_repository_rejected platform Demo.externals never
             "mirror/mysql" "" world_blank
             (mkURL "" "" None "" "mirror/mysql" "" false "" "")
             (mkRepoFile [stable; blank; mirror]) (fresh_getter "mirror/mysql" "" "" "")
             "mirror" "mysql" ltac:(repeat split; evaluate))
             [stable] blank [mirror] eq_refl).
    + intros x [<-|[]]. discriminate.
    + reflexivity.
    + reflexivity.
Defined.

Lemma index_failures_reported_witness :
  @ResolveChartVersionAndGetRepo platform Demo.externals never "ghost/x" "" world_ghost =
  (Some (mkURL "" "" None "" "ghost/x" "" false "" ""),
   Some (mkChartRepository (Some ghost)
           (GetterHTTP (fresh_getter (EntryURL ghost) "" "" ""))),
   Some (fresh_getter "ghost/x" "" "" ""),
   Some (Wrap (Foreign "/home/helm/repository/cache/ghost-index.yaml: no such file")
              no_cached_repo)) /\
  @ResolveChartVersionAndGetRepo platform Demo.externals never "stable/nope" "1.0" world0 =
  (Some (mkURL "" "" None "" "stable/nope" "" false "" ""),
   Some stable_repository,
   Some (mkHTTPGetter ("stable/nope", "", "", "") "alice" "s3cret"),
   Some (Wrapf (Foreign "no chart name found")
           "chart %q matching %s not found in %s index. (try 'helm repo update')"
           ["nope"; "1.0"; "stable"])).
Proof.
  split.
  - apply (proj1 (@index_failures_reported platform Demo.externals never
             "ghost/x" "" world_ghost (mkURL "" "" None "" "ghost/x" "" false "" "")
             (mkRepoFile [stable; ghost; mirror]) (fresh_getter "ghost/x" "" "" "")
             "ghost" "x" ghost _
             ltac:(repeat split; evaluate) ltac:(evaluate) ltac:(evaluate))).
    evaluate.
  - apply (proj2 (@index_failures_reported platform Demo.externals never
             "stable/nope" "1.0" world0
             (mkURL "" "" None "" "stable/nope" "" false "" "")
             (mkRepoFile [stable; mirror]) (fresh_getter "stable/nope" "" "" "")
             "stable" "nope" stable stable_repository
             ltac:(repeat split; evaluate) ltac:(evaluate) ltac:(evaluate))
             stable_index); evaluate.
Defined.

Lemma absolute_candidate_kept_witness :
  @ResolveChartVersionAndGetRepo platform Demo.externals never "mirror/mysql" "" world0 =
  (Some mysql_final, Some mirror_repository,
   Some (mkHTTPGetter ("mirror/mysql", "", "", "") "bob" "hunter2"), None).
Proof.
  apply (@absolute_candidate_kept platform Demo.externals never "mirror/mysql" ""
           world0 _ (fresh_getter "mirror/mysql" "" "" "") mirror mirror_repository
           mysql mysql_url [foo_url] mysql_final mirror_mysql_matched);
    evaluate.
Defined.

Lemma successful_resolution_is_complete_witness :
  is_Some (Some foo_final) /\ is_Some (Some stable_repository) /\
  is_Some (Some stable_getter).
Proof.
  apply (proj1 (@successful_resolution_is_complete platform Demo.externals never
                  "stable/foo" "" world0)).
  evaluate.
Defined.

Lemma matched_repository_keeps_its_client_witness :
  exists u g err,
    @ResolveChartVersionAndGetRepo platform Demo.externals never "stable/foo" "" world0
      = (u, Some stable_repository, g, err) /\
    Config stable_repository = Some stable /\
    @newClient platform Demo.externals stable tt world0 = Ok (Client stable_repository).
Proof.
  exact (@matched_repository_keeps_its_client platform Demo.externals never
           "stable/foo" "" world0 _ _ stable stable_repository foo stable_foo_matched).
Defined.

Lemma never_touches_only_the_archive_witness :
  (trace (snd (@DownloadTo platform Demo.externals never "stable/foo" "" "/tmp"
                 (@start platform world0))) = [] \/
   exists u r g data,
     @ResolveChartVersionAndGetRepo platform Demo.externals never "stable/foo" "" world0
       = (Some u, Some r, Some g, None) /\
     trace (snd (@DownloadTo platform Demo.externals never "stable/foo" "" "/tmp"
                   (@start platform world0)))
       `prefix_of` [@archive_request platform Demo.externals u g;
                    @archive_write platform Demo.externals "/tmp" u data]) /\
  (forall path ver,
     fst (@DownloadTo platform Demo.externals never "stable/foo" "" "/tmp" (@start platform world0))
       = (path, ver, None) ->
     ver = Some empty_Verification).
Proof.
  exact (@never_touches_only_the_archive platform Demo.externals never
           "stable/foo" "" "/tmp" world0 eq_refl).
Defined.

Lemma success_means_archive_written_witness :
  exists u r g data w1 w2 tl,
    @ResolveChartVersionAndGetRepo platform Demo.externals
      (downloader VerifyIfPossible "" "") "stable/foo" "" world0
      = (Some u, Some r, Some g, None) /\
    @Getter_Get platform Demo.externals (GetterHTTP g)
      (@url_String platform Demo.externals u) world0 = (Ok data, w1) /\
    @ioutil_WriteFile platform Demo.externals
      (@destination platform Demo.externals "/tmp" u) data w1 = (None, w2) /\
    "/tmp/foo-1.2.3.tgz" = @destination platform Demo.externals "/tmp" u /\
    trace (snd foo_run) =
      @archive_request platform Demo.externals u g
      :: @archive_write platform Demo.externals "/tmp" u data :: tl.
Proof.
  apply (@success_means_archive_written platform Demo.externals
           (downloader VerifyIfPossible "" "") "stable/foo" "" "/tmp" world0
           "/tmp/foo-1.2.3.tgz" (Some empty_Verification)).
  evaluate.
Defined.

Lemma archive_failures_are_fatal_witness :
  @DownloadTo platform Demo.externals always "mirror/mysql" "" "/tmp" (@start platform world0) =
  (("", None, Some (Foreign ("404 " +:+ mysql_url))),
   @mkState platform world0
     [@archive_request platform Demo.externals mysql_final
        mysql_getter]) /\
  @DownloadTo platform Faulty.externals always "stable/foo" "" "/readonly" (@start platform world0) =
  ((@destination platform Faulty.externals "/readonly" foo_final, None,
    Some (Foreign "permission denied")),
   @mkState platform world0
     [@archive_request platform Faulty.externals foo_final stable_getter;
      @archive_write platform Faulty.externals "/readonly" foo_final "FOO"]).
Proof.
  split.
  - apply (proj1 (@archive_failures_are_fatal platform Demo.externals always
             "mirror/mysql" "" "/tmp" world0 mysql_final mirror_repository
             mysql_getter
             ltac:(evaluate))).
    evaluate.
  - apply (proj2 (@archive_failures_are_fatal platform Faulty.externals always
             "stable/foo" "" "/readonly" world0 foo_final stable_repository
             stable_getter ltac:(evaluate)) "FOO" world0); evaluate.
Defined.

Lemma provenance_write_failure_is_fatal_witness :
  @DownloadTo platform Faulty.externals later "stable/qux" "" "/halfway" (@start platform world0) =
  ((@destination platform Faulty.externals "/halfway" qux_final, None,
    Some (Foreign "permission denied")),
   @mkState platform (written "/halfway/qux-0.1.0.tgz" "QUX" world0)
     [@archive_request platform Faulty.externals qux_final stable_getter;
      @archive_write platform Faulty.externals "/halfway" qux_final "QUX";
      @provenance_request platform Faulty.externals qux_final stable_repository;
      @provenance_write platform Faulty.externals "/halfway" qux_final "signed:QUUX"]).
Proof.
  apply (@provenance_write_failure_is_fatal platform Faulty.externals later
           "stable/qux" "" "/halfway" world0 qux_final stable_repository stable_getter
           ltac:(evaluate) "QUX" world0 (written "/halfway/qux-0.1.0.tgz" "QUX" world0)
           ltac:(evaluate) ltac:(evaluate)
           "signed:QUUX" (written "/halfway/qux-0.1.0.tgz" "QUX" world0)
           ltac:(evaluate)); settle.
Defined.

Lemma later_stores_provenance_unverified_witness :
  @DownloadTo platform Demo.externals later "stable/qux" "" "/tmp" (@start platform world0) =
  ((@destination platform Demo.externals "/tmp" qux_final,
    Some empty_Verification, None),
   @mkState platform (written "/tmp/qux-0.1.0.tgz.prov" "signed:QUUX"
              (written "/tmp/qux-0.1.0.tgz" "QUX" world0))
     [@archive_request platform Demo.externals qux_final stable_getter;
      @archive_write platform Demo.externals "/tmp" qux_final "QUX";
      @provenance_request platform Demo.externals qux_final stable_repository;
      @provenance_write platform Demo.externals "/tmp" qux_final "signed:QUUX"]).
Proof.
  apply (@later_stores_provenance_unverified platform Demo.externals later
           "stable/qux" "" "/tmp" world0 qux_final stable_repository stable_getter
           ltac:(evaluate) "QUX" world0 (written "/tmp/qux-0.1.0.tgz" "QUX" world0)
           ltac:(evaluate) ltac:(evaluate)
           "signed:QUUX" (written "/tmp/qux-0.1.0.tgz" "QUX" world0)
           ltac:(evaluate)); settle.
Defined.

Lemma verified_download_returns_verification_witness :
  @DownloadTo platform Demo.externals always "stable/qux" "" "/tmp" (@start platform world_signed) =
  ((@destination platform Demo.externals "/tmp" qux_final,
    Some (mkVerification (Some "pubring.gpg") "QUX" "/tmp/qux-0.1.0.tgz"), None),
   @mkState platform world_stored
     [@archive_request platform Demo.externals qux_final stable_getter;
      @archive_write platform Demo.externals "/tmp" qux_final "QUX";
      @provenance_request platform Demo.externals qux_final stable_repository;
      @provenance_write platform Demo.externals "/tmp" qux_final "signed:QUX";
      @verification platform Demo.externals always "/tmp" qux_final]).
Proof.
  apply (@verified_download_returns_verification platform Demo.externals always
           "stable/qux" "" "/tmp" world_signed qux_final stable_repository stable_getter
           ltac:(evaluate) "QUX" world_signed
           (written "/tmp/qux-0.1.0.tgz" "QUX" world_signed)
           ltac:(evaluate) ltac:(evaluate)
           "signed:QUX" (written "/tmp/qux-0.1.0.tgz" "QUX" world_signed)
           ltac:(evaluate) world_stored ltac:(evaluate)); settle.
Defined.

Lemma verifier_success_requires_witness :
  exists fi fi' sig,
    @os_Stat platform Demo.externals "/tmp/qux-0.1.0.tgz" world_stored = Ok fi /\
    IsDir fi = false /\
    @isTar platform Demo.externals "/tmp/qux-0.1.0.tgz" = true /\
    @os_Stat platform Demo.externals ("/tmp/qux-0.1.0.tgz" +:+ ".prov") world_stored
      = Ok fi' /\
    @provenance_NewFromKeyring platform Demo.externals "pubring.gpg" "" world_stored
      = Ok sig /\
    @Signatory_Verify platform Demo.externals sig "/tmp/qux-0.1.0.tgz"
      ("/tmp/qux-0.1.0.tgz" +:+ ".prov") world_stored
      = (Some (mkVerification (Some "pubring.gpg") "QUX" "/tmp/qux-0.1.0.tgz"), None).
Proof.
  apply (@verifier_success_requires platform Demo.externals "/tmp/qux-0.1.0.tgz"
           "pubring.gpg" (@start platform world_stored)
           (Some (mkVerification (Some "pubring.gpg") "QUX" "/tmp/qux-0.1.0.tgz"))).
  evaluate.
Defined.

Lemma verifier_rejections_witness :
  fst (@VerifyChart platform Faulty.externals "/tmp/unpacked.tgz" "pubring.gpg"
         (@start platform world0))
    = (None, Some (New "unpacked charts cannot be verified")) /\
  fst (@VerifyChart platform Demo.externals "/tmp/qux-0.1.0.tgz.prov" "pubring.gpg"
         (@start platform world_stored))
    = (None, Some (New "chart must be a tgz file")) /\
  fst (@VerifyChart platform Demo.externals "/tmp/foo-1.2.3.tgz" "pubring.gpg"
         (@start platform (written "/tmp/foo-1.2.3.tgz" "FOO" world0)))
    = (None, Some (Wrapf (Foreign "/tmp/foo-1.2.3.tgz.prov: no such file")
                         "could not load provenance file %s"
                         ["/tmp/foo-1.2.3.tgz" +:+ ".prov"])).
Proof.
  split; [|split].
  - apply (proj1 (proj2 (@verifier_rejections platform Faulty.externals
             "/tmp/unpacked.tgz" "pubring.gpg" (@start platform world0))
             (mkFileInfo true) ltac:(evaluate))).
    reflexivity.
  - apply (proj1 (proj2 (proj2 (@verifier_rejections platform Demo.externals
             "/tmp/qux-0.1.0.tgz.prov" "pubring.gpg" (@start platform world_stored))
             (mkFileInfo false) ltac:(evaluate)) eq_refl)).
    evaluate.
  - apply (proj1 (proj2 (proj2 (proj2 (@verifier_rejections platform Demo.externals
             "/tmp/foo-1.2.3.tgz" "pubring.gpg"
             (@start platform (written "/tmp/foo-1.2.3.tgz" "FOO" world0)))
             (mkFileInfo false) ltac:(evaluate)) eq_refl) ltac:(evaluate))).
    evaluate.
Defined.

End MoreInstances.
